(** * LogiCam Control: the interactive control engine of [src/ui.tsx] and the
    device driver wrapper of [src/webcam.ts], embedded in Rocq.

    The embedding follows the two source files.

    - [Js]: the handful of JavaScript primitives the code leans on
      ([parseInt], [Number], [indexOf], [includes], [split], [join], the
      three regular expressions of [getCurrentVideoFormat]).
    - [Webcam]: class [WebcamController].  Every method talks to the camera
      through [execSync]; the outside world is a record holding the list of
      commands run so far and a function that answers the next command from
      that list, so any run of a real device is an instance of it.
    - [Ui]: component [App]: its state variables, the callbacks and the
      [useInput] handler, as functions on an explicit state record.  The
      state setters of one handler run are batched, the last write to a
      variable wins, which is what threading one record through the handler
      gives.  [setTimeout] is a list of due times next to a clock.

    Numbers are integers ([Z]); the code only ever produces integers for the
    controls, and the one number read with [parseFloat] (the frame rate) is
    kept as its decimal text, the only form in which [App] uses it.  What is
    modelled is the event handlers; the JSX markup is not, and neither are
    the reads that a later render repeats when it evaluates the arguments of
    the [useState] calls again and drops their results. *)

From Stdlib Require Import ZArith List String Ascii Bool Lia DecimalString DecimalPos.
Import ListNotations.
Open Scope string_scope.
Open Scope Z_scope.

(* ================================================================== *)
(** ** JavaScript primitives *)

Module Js.

(** [a || b] on numbers: [0] (and [NaN], here [None]) is falsy. *)
Definition orNum (a : Z) (b : Z) : Z := if a =? 0 then b else a.

Definition orNaN (a : option Z) (b : Z) : Z :=
  match a with
  | Some n => orNum n b
  | None => b
  end.

(** [a || b] on optional number fields of an object. *)
Definition orField (a : option Z) (b : Z) : Z := orNaN a b.

(** [Math.max(lo, Math.min(hi, x))]. *)
Definition clamp (lo hi x : Z) : Z := Z.max lo (Z.min hi x).

(** [`${n}`] for an integer. *)
Definition toStr (n : Z) : string := NilZero.string_of_int (Z.to_int n).

Definition code (c : ascii) : Z := Z.of_nat (nat_of_ascii c).

(** White space as [parseInt] and [\s] see it (the ASCII part of it). *)
Definition is_space (c : ascii) : bool :=
  (code c =? 32) || ((9 <=? code c) && (code c <=? 13)).

Definition dec_val (c : ascii) : option Z :=
  if (48 <=? code c) && (code c <=? 57) then Some (code c - 48) else None.

Definition hex_val (c : ascii) : option Z :=
  if (48 <=? code c) && (code c <=? 57) then Some (code c - 48)
  else if (97 <=? code c) && (code c <=? 102) then Some (code c - 87)
  else if (65 <=? code c) && (code c <=? 70) then Some (code c - 55)
  else None.

Definition is_digit (c : ascii) : bool :=
  match dec_val c with Some _ => true | None => false end.

Fixpoint skip_spaces (s : string) : string :=
  match s with
  | String c rest => if is_space c then skip_spaces rest else s
  | EmptyString => s
  end.

(** Longest prefix of digits in the given radix; [None] when it is empty. *)
Fixpoint read_digits (val : ascii -> option Z) (radix : Z) (acc : option Z)
    (s : string) : option Z :=
  match s with
  | String c rest =>
      match val c with
      | Some d =>
          read_digits val radix
            (Some (radix * match acc with Some a => a | None => 0 end + d)) rest
      | None => acc
      end
  | EmptyString => acc
  end.

Definition read_sign (s : string) : bool * string :=
  match s with
  | String "-" rest => (true, rest)
  | String "+" rest => (false, rest)
  | _ => (false, s)
  end.

Definition signed (neg : bool) (n : Z) : Z := if neg then - n else n.

(** [parseInt(s)] without a radix; [None] is [NaN]. *)
Definition parseInt (s : string) : option Z :=
  let (neg, body) := read_sign (skip_spaces s) in
  match body with
  | String "0" (String "x" rest) => option_map (signed neg) (read_digits hex_val 16 None rest)
  | String "0" (String "X" rest) => option_map (signed neg) (read_digits hex_val 16 None rest)
  | _ => option_map (signed neg) (read_digits dec_val 10 None body)
  end.

(** [parseInt(undefined)] is [NaN]. *)
Definition parseIntOpt (s : option string) : option Z :=
  match s with
  | Some s => parseInt s
  | None => None
  end.

Fixpoint all_digits (s : string) : bool :=
  match s with
  | String c rest => is_digit c && all_digits rest
  | EmptyString => true
  end.

(** [Number(s)] on the strings the program applies it to: the pieces of
    [`${width}x${height}`] and of the resolution options, that is an optional
    sign followed by decimal digits, and the empty string (which is [0]).
    Any other text is [NaN], here [None]. *)
Definition Number (s : string) : option Z :=
  match s with
  | EmptyString => Some 0
  | _ =>
      let (neg, body) := read_sign s in
      match body with
      | EmptyString => None
      | _ => if all_digits body
             then option_map (signed neg) (read_digits dec_val 10 None body)
             else None
      end
  end.

(** [hay.includes(needle)]. *)
Fixpoint includes (needle hay : string) : bool :=
  if prefix needle hay then true
  else match hay with
       | String _ rest => includes needle rest
       | EmptyString => false
       end.

(** [s.split(sep)] for a separator of one character. *)
Fixpoint split (sep : ascii) (s : string) : list string :=
  match s with
  | EmptyString => [EmptyString]
  | String c rest =>
      if Ascii.eqb c sep then EmptyString :: split sep rest
      else match split sep rest with
           | piece :: pieces => String c piece :: pieces
           | [] => [String c EmptyString]
           end
  end.

Fixpoint strip_prefix (p s : string) : option string :=
  match p, s with
  | EmptyString, _ => Some s
  | String a p', String b s' => if Ascii.eqb a b then strip_prefix p' s' else None
  | String _ _, EmptyString => None
  end.

(** [s.replace(pat, '')]: the first occurrence of [pat] is removed. *)
Fixpoint remove_first (pat s : string) : string :=
  match strip_prefix pat s with
  | Some rest => rest
  | None => match s with
            | String c rest => String c (remove_first pat rest)
            | EmptyString => EmptyString
            end
  end.

(** [xs.indexOf(v)]: position of the first occurrence, [-1] when absent. *)
Fixpoint indexOf (xs : list string) (v : string) : Z :=
  match xs with
  | [] => -1
  | x :: rest =>
      if String.eqb x v then 0
      else let i := indexOf rest v in if i <? 0 then -1 else i + 1
  end.

(** [xs[i]]: [undefined] (here [None]) outside the array. *)
Definition at_ {A : Type} (xs : list A) (i : Z) : option A :=
  if i <? 0 then None else nth_error xs (Z.to_nat i).

(** [xs.length]. *)
Definition len {A : Type} (xs : list A) : Z := Z.of_nat (List.length xs).

(** [xs.join(sep)]. *)
Definition join (sep : string) (xs : list string) : string := String.concat sep xs.

(** [xs.includes(v)] on an array of strings. *)
Definition mem (xs : list string) (v : string) : bool := existsb (String.eqb v) xs.

(** *** The three regular expressions of [getCurrentVideoFormat] *)

Fixpoint span (f : ascii -> bool) (s : string) : string * string :=
  match s with
  | String c rest =>
      if f c then let (a, b) := span f rest in (String c a, b) else (EmptyString, s)
  | EmptyString => (EmptyString, EmptyString)
  end.

Definition nonempty (s : string) : bool :=
  match s with EmptyString => false | _ => true end.

(** A match is looked for at every position, leftmost first. *)
Fixpoint search {A : Type} (m : string -> option A) (s : string) : option A :=
  match m s with
  | Some r => Some r
  | None => match s with
            | String _ rest => search m rest
            | EmptyString => None
            end
  end.

Definition bindo {A B : Type} (a : option A) (f : A -> option B) : option B :=
  match a with Some x => f x | None => None end.

(** [label\s*:\s*] at the head of [s]; what follows it. *)
Definition labelled (label : string) (s : string) : option string :=
  bindo (strip_prefix label s) (fun r =>
  bindo (strip_prefix ":" (skip_spaces r)) (fun r =>
  Some (skip_spaces r))).

(** [/Width\/Height\s*:\s*(\d+)\/(\d+)/]: the two captured groups. *)
Definition re_width_height_at (s : string) : option (string * string) :=
  bindo (labelled "Width/Height" s) (fun r =>
  let (w, r) := span is_digit r in
  if nonempty w then
    bindo (strip_prefix "/" r) (fun r =>
    let (h, _) := span is_digit r in
    if nonempty h then Some (w, h) else None)
  else None).

Definition re_width_height : string -> option (string * string) :=
  search re_width_height_at.

Definition not_quote (c : ascii) : bool := negb (Ascii.eqb c "'").

(** [/Pixel Format\s*:\s*'([^']+)'/]: the captured group. *)
Definition re_pixel_format_at (s : string) : option string :=
  bindo (labelled "Pixel Format" s) (fun r =>
  bindo (strip_prefix "'" r) (fun r =>
  let (name, r) := span not_quote r in
  if nonempty name then
    bindo (strip_prefix "'" r) (fun _ => Some name)
  else None)).

Definition re_pixel_format : string -> option string := search re_pixel_format_at.

Definition digit_or_dot (c : ascii) : bool := is_digit c || Ascii.eqb c ".".

(** [/Frames per second:\s*([0-9.]+)/]: the captured group. *)
Definition re_frame_rate_at (s : string) : option string :=
  bindo (strip_prefix "Frames per second:" s) (fun r =>
  let (num, _) := span digit_or_dot (skip_spaces r) in
  if nonempty num then Some num else None).

Definition re_frame_rate : string -> option string := search re_frame_rate_at.

Fixpoint drop_zeros (s : string) : string :=
  match s with
  | String "0" rest => drop_zeros rest
  | _ => s
  end.

Fixpoint drop_last_zeros (s : string) : string :=
  match s with
  | String c rest =>
      match drop_last_zeros rest with
      | EmptyString => if Ascii.eqb c "0" then EmptyString else String c EmptyString
      | rest' => String c rest'
      end
  | EmptyString => EmptyString
  end.

(** [`${parseFloat(s)}`] for [s] made of digits and dots: [parseFloat] reads
    the longest prefix [digits], [digits.digits] or [.digits], and the number
    prints without leading or trailing zeros (["30.000"] gives ["30"],
    ["7.50"] gives ["7.5"]); no readable prefix gives ["NaN"].  This is the
    decimal text of the double for every rate a camera reports (up to 15
    significant digits, no exponent form). *)
Definition floatText (s : string) : string :=
  let (ip, r) := span is_digit s in
  let fp := match r with
            | String "." r' => fst (span is_digit r')
            | _ => EmptyString
            end in
  if nonempty ip || nonempty fp then
    let ip' := match drop_zeros ip with EmptyString => "0" | t => t end in
    match drop_last_zeros fp with
    | EmptyString => ip'
    | fp' => ip' ++ "." ++ fp'
    end
  else "NaN".

End Js.

(* ================================================================== *)
(** ** [src/webcam.ts]: class [WebcamController] *)

Module Webcam.

(** The command lines handed to [execSync]; the device path is the fixed
    [/dev/video0] of the constructor.  A number that is [NaN] or [undefined]
    when it is spliced into the command line is [None]. *)
Inductive Cmd : Type :=
| TestDevice                                   (* test -e /dev/video0 *)
| WhichV4l2                                    (* which v4l2-ctl *)
| GetCtrl (control : string)                   (* --get-ctrl=control *)
| GetFmtVideo                                  (* --get-fmt-video *)
| GetParm                                      (* --get-parm *)
| ListCtrls                                    (* --list-ctrls *)
| SetCtrl (control : string) (value : Z)       (* --set-ctrl=control=value *)
| SetFmtVideo (width height : option Z) (pixelFormat : string)
                                               (* --set-fmt-video=width=..,height=..,pixelformat=.. *)
| SetParm (fps : option Z).                    (* --set-parm=fps *)

(** What [execSync] does: it returns the standard output, or throws; of a
    thrown error the code only reads
    [error.stderr?.toString() || error.message || ''], the text kept here. *)
Inductive Outcome : Type :=
| Done (stdout : string)
| Thrown (errorMsg : string).

(** The world outside the process: the commands run so far, and how the
    system answers the next one given all that ran before. *)
Record World : Type := {
  history : list Cmd;
  respond : list Cmd -> Cmd -> Outcome
}.

(** Methods of the controller are computations on the world. *)
Definition M (A : Type) : Type := World -> A * World.

Definition ret {A : Type} (a : A) : M A := fun w => (a, w).

Definition bind {A B : Type} (m : M A) (k : A -> M B) : M B :=
  fun w => let (a, w') := m w in k a w'.

Notation "x <- c ;; k" := (bind c (fun x => k))
  (at level 61, c at next level, right associativity).
Notation "c ;; k" := (bind c (fun _ => k))
  (at level 61, right associativity).

Definition execSync (c : Cmd) : M Outcome :=
  fun w => (respond w (history w) c,
            {| history := history w ++ [c]; respond := respond w |}).

Record WebcamSettings : Type := {
  brightness : Z;
  contrast : Z;
  saturation : Z;
  sharpness : Z;
  gain : Z;
  autoExposure : bool;
  autoFocus : bool;
  autoWhiteBalance : bool;
  powerLineFrequency : Z;
  exposureValue : Z;
  focusValue : Z;
  whiteBalanceValue : Z
}.

(** [frameRate] is the number read by [parseFloat], as its decimal text. *)
Record VideoFormat : Type := {
  width : Z;
  height : Z;
  pixelFormat : string;
  frameRate : string
}.

(** The inner [getControl] of [getCurrentSettings]:
    [parseInt(result.split(' ')[1]) || 0], and [0] when the command throws. *)
Definition getControl (control : string) : M Z :=
  r <- execSync (GetCtrl control) ;;
  ret match r with
      | Done result => Js.orNaN (Js.parseIntOpt (nth_error (Js.split " " result) 1)) 0
      | Thrown _ => 0
      end.

Definition getCurrentSettings : M WebcamSettings :=
  brightness <- getControl "brightness" ;;
  contrast <- getControl "contrast" ;;
  saturation <- getControl "saturation" ;;
  sharpness <- getControl "sharpness" ;;
  gain <- getControl "gain" ;;
  autoExposure <- getControl "auto_exposure" ;;
  autoFocus <- getControl "focus_automatic_continuous" ;;
  autoWhiteBalance <- getControl "white_balance_automatic" ;;
  powerLineFrequency <- getControl "power_line_frequency" ;;
  exposureValue <- getControl "exposure_time_absolute" ;;
  focusValue <- getControl "focus_absolute" ;;
  whiteBalanceValue <- getControl "white_balance_temperature" ;;
  ret {| brightness := Js.orNum brightness 128;
         contrast := Js.orNum contrast 128;
         saturation := Js.orNum saturation 128;
         sharpness := Js.orNum sharpness 128;
         gain := Js.orNum gain 0;
         autoExposure := autoExposure =? 3;
         autoFocus := autoFocus =? 1;
         autoWhiteBalance := autoWhiteBalance =? 1;
         powerLineFrequency := Js.orNum powerLineFrequency 2;
         exposureValue := Js.orNum exposureValue 250;
         focusValue := Js.orNum focusValue 0;
         whiteBalanceValue := Js.orNum whiteBalanceValue 4000 |}.

Definition defaultFormat : VideoFormat :=
  {| width := 640; height := 480; pixelFormat := "YUYV"; frameRate := "30" |}.

(** [parseInt] of a captured [\d+] group, which is never [NaN]. *)
Definition captured (s : string) : Z :=
  match Js.parseInt s with Some n => n | None => 0 end.

(** The second command is not run when the first one throws. *)
Definition getCurrentVideoFormat : M VideoFormat :=
  r <- execSync GetFmtVideo ;;
  match r with
  | Done result =>
      let widthHeight := Js.re_width_height result in
      let pixelFormat := Js.re_pixel_format result in
      p <- execSync GetParm ;;
      match p with
      | Done parmResult =>
          let frameRate := Js.re_frame_rate parmResult in
          ret {| width := match widthHeight with Some (w, _) => captured w | None => 640 end;
                 height := match widthHeight with Some (_, h) => captured h | None => 480 end;
                 pixelFormat := match pixelFormat with Some f => f | None => "YUYV" end;
                 frameRate := match frameRate with Some f => Js.floatText f | None => "30" end |}
      | Thrown _ => ret defaultFormat
      end
  | Thrown _ => ret defaultFormat
  end.

Definition setControl (control : string) (value : Z) : M bool :=
  r <- execSync (SetCtrl control value) ;;
  ret match r with
      | Done _ => true
      | Thrown _ => false
      end.

Definition setBrightness (value : Z) : M bool :=
  setControl "brightness" (Js.clamp 0 255 value).

Definition setContrast (value : Z) : M bool :=
  setControl "contrast" (Js.clamp 0 255 value).

Definition setSaturation (value : Z) : M bool :=
  setControl "saturation" (Js.clamp 0 255 value).

Definition setSharpness (value : Z) : M bool :=
  setControl "sharpness" (Js.clamp 0 255 value).

Definition setGain (value : Z) : M bool :=
  setControl "gain" (Js.clamp 0 255 value).

Definition setAutoExposure (enabled : bool) : M bool :=
  setControl "auto_exposure" (if enabled then 3 else 1).

Definition setAutoFocus (enabled : bool) : M bool :=
  setControl "focus_automatic_continuous" (if enabled then 1 else 0).

Definition setAutoWhiteBalance (enabled : bool) : M bool :=
  setControl "white_balance_automatic" (if enabled then 1 else 0).

Definition setPowerLineFrequency (frequency : Z) : M bool :=
  setControl "power_line_frequency" (Js.clamp 0 2 frequency).

Definition setExposureValue (value : Z) : M bool :=
  setControl "exposure_time_absolute" (Js.clamp 3 2047 value).

Definition setFocusValue (value : Z) : M bool :=
  setControl "focus_absolute" (Js.clamp 0 250 value).

Definition setWhiteBalanceValue (value : Z) : M bool :=
  setControl "white_balance_temperature" (Js.clamp 2000 6500 value).

(** [{ success, error? }]. *)
Record Result : Type := {
  success : bool;
  error : option string
}.

Definition busyOrUnknown (r : Outcome) : Result :=
  match r with
  | Done _ => {| success := true; error := None |}
  | Thrown errorMsg =>
      if Js.includes "Device or resource busy" errorMsg
      then {| success := false; error := Some "DEVICE_BUSY" |}
      else {| success := false; error := Some "UNKNOWN" |}
  end.

Definition setVideoFormat (width height : option Z) (pixelFormat : string) : M Result :=
  r <- execSync (SetFmtVideo width height pixelFormat) ;;
  ret (busyOrUnknown r).

Definition setFrameRate (fps : option Z) : M Result :=
  r <- execSync (SetParm fps) ;;
  ret (busyOrUnknown r).

(** [r.error === 'DEVICE_BUSY']. *)
Definition isDeviceBusy (r : Result) : bool :=
  match error r with
  | Some e => String.eqb e "DEVICE_BUSY"
  | None => false
  end.

(** [{ success, errors }] of the two composite operations. *)
Record Composite : Type := {
  ok : bool;
  errors : list string
}.

Definition noErrors (errors : list string) : bool :=
  match errors with [] => true | _ => false end.

(** [errors.push(..)] for a step that did not succeed. *)
Definition pushFailure (errors : list string) (r : Result) (busy other : string)
    : list string :=
  if negb (success r) then
    if isDeviceBusy r then errors ++ [busy] else errors ++ [other]
  else errors.

(** Each call below catches what [execSync] throws, so nothing reaches the
    [catch] of the enclosing [try]: the body always runs to its [return]. *)
Definition applyOptimalSettings : M Composite :=
  let errors := [] in
  formatResult <- setVideoFormat (Some 1920) (Some 1080) "MJPG" ;;
  let errors := pushFailure errors formatResult
      "Cannot change video format: camera is in use by another application"
      "Failed to set video format" in
  frameRateResult <- setFrameRate (Some 30) ;;
  let errors := pushFailure errors frameRateResult
      "Cannot change frame rate: camera is in use by another application"
      "Failed to set frame rate" in
  setAutoExposure true ;;
  setAutoFocus true ;;
  setAutoWhiteBalance true ;;
  setPowerLineFrequency 2 ;;
  setSaturation 128 ;;
  setSharpness 128 ;;
  setBrightness 128 ;;
  setContrast 128 ;;
  ret {| ok := noErrors errors; errors := errors |}.

Definition resetToDefaults : M Composite :=
  let errors := [] in
  formatResult <- setVideoFormat (Some 640) (Some 480) "YUYV" ;;
  let errors := pushFailure errors formatResult
      "Cannot reset video format: camera is in use by another application"
      "Failed to reset video format" in
  frameRateResult <- setFrameRate (Some 30) ;;
  let errors := pushFailure errors frameRateResult
      "Cannot reset frame rate: camera is in use by another application"
      "Failed to reset frame rate" in
  setBrightness 128 ;;
  setContrast 128 ;;
  setSaturation 128 ;;
  setSharpness 128 ;;
  setGain 0 ;;
  setAutoExposure false ;;
  setAutoFocus false ;;
  setAutoWhiteBalance true ;;
  setPowerLineFrequency 1 ;;
  setControl "backlight_compensation" 0 ;;
  ret {| ok := noErrors errors; errors := errors |}.

(** [{ available, inUse, error? }]. *)
Record DeviceStatus : Type := {
  available : bool;
  inUse : bool;
  statusError : option string
}.

Definition getDeviceStatus : M DeviceStatus :=
  r <- execSync GetFmtVideo ;;
  ret match r with
      | Done _ => {| available := true; inUse := false; statusError := None |}
      | Thrown errorMsg =>
          if Js.includes "Device or resource busy" errorMsg then
            {| available := true; inUse := true; statusError := None |}
          else if Js.includes "No such file or directory" errorMsg then
            {| available := false; inUse := false; statusError := Some "Device not found" |}
          else
            {| available := false; inUse := false; statusError := Some "Unknown error" |}
      end.

Definition nl : string := String (ascii_of_nat 10) EmptyString.

Definition unableInfo : string := "Unable to retrieve detailed information".

Definition getDetailedInfo : M string :=
  a <- execSync GetFmtVideo ;;
  match a with
  | Done fmt =>
      b <- execSync GetParm ;;
      match b with
      | Done parm =>
          c <- execSync ListCtrls ;;
          match c with
          | Done controls =>
              ret ("Video Format:" ++ nl ++ fmt ++ nl ++ "Frame Rate:" ++ nl ++ parm
                   ++ nl ++ "All Controls:" ++ nl ++ controls)
          | Thrown _ => ret unableInfo
          end
      | Thrown _ => ret unableInfo
      end
  | Thrown _ => ret unableInfo
  end.

(** The simpler probe next to [getDeviceStatus]. *)
Definition checkDeviceBusy : M bool :=
  r <- execSync GetFmtVideo ;;
  ret match r with
      | Done _ => false
      | Thrown errorMsg => Js.includes "Device or resource busy" errorMsg
      end.

End Webcam.

(* ================================================================== *)
(** ** [src/ui.tsx]: component [App] *)

Module Ui.

Import Webcam.

Notation "a === b" := (String.eqb a b) (at level 70, no associativity).

(** [value: number | boolean | string]. *)
Inductive Value : Type :=
| VNum (n : Z)
| VBool (b : bool)
| VStr (s : string).

Module Setting.

Inductive Type_ : Type := range | toggle | select.

(** [interface SettingItem]. *)
Record Item : Type := {
  key : string;
  label : string;
  type : Type_;
  value : Value;
  options : option (list string);
  min : option Z;
  max : option Z;
  step : option Z
}.

End Setting.

Module Dialog.

(** [type DialogType]. *)
Inductive Type_ : Type := none | help | info | reset | error.

(** [interface DialogState]; [onConfirm] is never given a value. *)
Record State : Type := {
  type : Type_;
  title : option string;
  message : option string
}.

Definition isNone (d : State) : bool :=
  match type d with none => true | _ => false end.

Definition isReset (d : State) : bool :=
  match type d with reset => true | _ => false end.

End Dialog.

Module Notification.

Inductive Type_ : Type := info | success | error.

(** [interface NotificationState]. *)
Record State : Type := {
  message : string;
  type : Type_;
  visible : bool
}.

End Notification.

(** The [key] argument of an [useInput] handler, the fields [App] reads. *)
Record Key : Type := {
  upArrow : bool;
  downArrow : bool;
  leftArrow : bool;
  rightArrow : bool;
  return_ : bool;
  escape : bool;
  pageUp : bool;
  pageDown : bool;
  ctrl : bool
}.

(** The six state variables of [App], and around them the controller's
    world, the clock (milliseconds), the due times of the pending
    [setTimeout] callbacks and whether [exit()] was called. *)
Record State : Type := {
  currentSettings : WebcamSettings;
  currentFormat : VideoFormat;
  selectedIndex : Z;
  deviceBusy : bool;
  dialog : Dialog.State;
  notification : Notification.State;
  webcam : World;
  clock : Z;
  timers : list Z;
  exited : bool
}.

Definition setCurrentSettings (v : WebcamSettings) (st : State) : State :=
  {| currentSettings := v; currentFormat := currentFormat st;
     selectedIndex := selectedIndex st; deviceBusy := deviceBusy st;
     dialog := dialog st; notification := notification st;
     webcam := webcam st; clock := clock st; timers := timers st;
     exited := exited st |}.

Definition setCurrentFormat (v : VideoFormat) (st : State) : State :=
  {| currentSettings := currentSettings st; currentFormat := v;
     selectedIndex := selectedIndex st; deviceBusy := deviceBusy st;
     dialog := dialog st; notification := notification st;
     webcam := webcam st; clock := clock st; timers := timers st;
     exited := exited st |}.

Definition setSelectedIndex (v : Z) (st : State) : State :=
  {| currentSettings := currentSettings st; currentFormat := currentFormat st;
     selectedIndex := v; deviceBusy := deviceBusy st;
     dialog := dialog st; notification := notification st;
     webcam := webcam st; clock := clock st; timers := timers st;
     exited := exited st |}.

Definition setDeviceBusy (v : bool) (st : State) : State :=
  {| currentSettings := currentSettings st; currentFormat := currentFormat st;
     selectedIndex := selectedIndex st; deviceBusy := v;
     dialog := dialog st; notification := notification st;
     webcam := webcam st; clock := clock st; timers := timers st;
     exited := exited st |}.

Definition setDialog (v : Dialog.State) (st : State) : State :=
  {| currentSettings := currentSettings st; currentFormat := currentFormat st;
     selectedIndex := selectedIndex st; deviceBusy := deviceBusy st;
     dialog := v; notification := notification st;
     webcam := webcam st; clock := clock st; timers := timers st;
     exited := exited st |}.

Definition setNotification (v : Notification.State) (st : State) : State :=
  {| currentSettings := currentSettings st; currentFormat := currentFormat st;
     selectedIndex := selectedIndex st; deviceBusy := deviceBusy st;
     dialog := dialog st; notification := v;
     webcam := webcam st; clock := clock st; timers := timers st;
     exited := exited st |}.

Definition withWorld (v : World) (st : State) : State :=
  {| currentSettings := currentSettings st; currentFormat := currentFormat st;
     selectedIndex := selectedIndex st; deviceBusy := deviceBusy st;
     dialog := dialog st; notification := notification st;
     webcam := v; clock := clock st; timers := timers st;
     exited := exited st |}.

Definition withTimers (now : Z) (v : list Z) (st : State) : State :=
  {| currentSettings := currentSettings st; currentFormat := currentFormat st;
     selectedIndex := selectedIndex st; deviceBusy := deviceBusy st;
     dialog := dialog st; notification := notification st;
     webcam := webcam st; clock := now; timers := v;
     exited := exited st |}.

(** [exit()] of [useApp]. *)
Definition exit (st : State) : State :=
  {| currentSettings := currentSettings st; currentFormat := currentFormat st;
     selectedIndex := selectedIndex st; deviceBusy := deviceBusy st;
     dialog := dialog st; notification := notification st;
     webcam := webcam st; clock := clock st; timers := timers st;
     exited := true |}.

(** A method call on the controller [webcam]. *)
Definition call {A : Type} (m : M A) (st : State) : A * State :=
  (fst (m (webcam st)), withWorld (snd (m (webcam st))) st).

(** A method call whose result is dropped. *)
Definition run {A : Type} (m : M A) (st : State) : State := snd (call m st).

(** *** Coercions that JavaScript applies to a [value] *)

(** Truthiness, for [!value] and [value || ..]. *)
Definition truthy (v : Value) : bool :=
  match v with
  | VNum n => negb (n =? 0)
  | VBool b => b
  | VStr s => Js.nonempty s
  end.

(** [value] as a number.  Range settings always carry a number (lemma
    [catalog_range_is_number] below); [true] and [false] count [1] and [0]. *)
Definition asNumber (v : Value) : Z :=
  match v with
  | VNum n => n
  | VBool b => if b then 1 else 0
  | VStr _ => 0
  end.

(** [`${value}`]. *)
Definition asString (v : Value) : string :=
  match v with
  | VNum n => Js.toStr n
  | VBool b => if b then "true" else "false"
  | VStr s => s
  end.

(** [options.indexOf(value)]: strict equality, so only a string can be found. *)
Definition indexOfValue (options : list string) (v : Value) : Z :=
  match v with
  | VStr s => Js.indexOf options s
  | _ => -1
  end.

(** [item?.value as string || fallback]. *)
Definition valueOr (item : option Setting.Item) (fallback : string) : string :=
  match item with
  | Some i => if truthy (Setting.value i) then asString (Setting.value i) else fallback
  | None => fallback
  end.

(** *** Helpers at the end of the file *)

Definition getPowerLineDisplay (frequency : Z) : string :=
  if frequency =? 0 then "Disabled"
  else if frequency =? 1 then "50Hz"
  else if frequency =? 2 then "60Hz"
  else "Unknown".

Definition getAutoSettingName (manualKey : string) : string :=
  if manualKey === "exposureValue" then "Auto Exposure"
  else if manualKey === "focusValue" then "Auto Focus"
  else if manualKey === "whiteBalanceValue" then "Auto White Balance"
  else "Auto setting".

(** *** The settings catalog ([settings], a [useMemo]) *)

Definition rangeItem (key label : string) (value min max step : Z) : Setting.Item :=
  {| Setting.key := key; Setting.label := label; Setting.type := Setting.range;
     Setting.value := VNum value; Setting.options := None;
     Setting.min := Some min; Setting.max := Some max; Setting.step := Some step |}.

Definition toggleItem (key label : string) (value : bool) : Setting.Item :=
  {| Setting.key := key; Setting.label := label; Setting.type := Setting.toggle;
     Setting.value := VBool value; Setting.options := None;
     Setting.min := None; Setting.max := None; Setting.step := None |}.

Definition selectItem (key label value : string) (options : list string) : Setting.Item :=
  {| Setting.key := key; Setting.label := label; Setting.type := Setting.select;
     Setting.value := VStr value; Setting.options := Some options;
     Setting.min := None; Setting.max := None; Setting.step := None |}.

Definition catalog (cs : WebcamSettings) (cf : VideoFormat) : list Setting.Item :=
  [ selectItem "resolution" "Resolution"
      (Js.toStr (width cf) ++ "x" ++ Js.toStr (height cf))
      ["640x480"; "800x600"; "1024x576"; "1280x720"; "1920x1080"];
    selectItem "format" "Pixel Format" (pixelFormat cf) ["YUYV"; "MJPG"];
    selectItem "framerate" "Frame Rate" (frameRate cf ++ "fps")
      ["5fps"; "10fps"; "15fps"; "20fps"; "24fps"; "30fps"];
    rangeItem "brightness" "Brightness" (brightness cs) 0 255 1;
    rangeItem "contrast" "Contrast" (contrast cs) 0 255 1;
    rangeItem "saturation" "Saturation" (saturation cs) 0 255 1;
    rangeItem "sharpness" "Sharpness" (sharpness cs) 0 255 1;
    rangeItem "gain" "Gain/ISO" (gain cs) 0 255 1;
    toggleItem "autoExposure" "Auto Exposure" (autoExposure cs);
    rangeItem "exposureValue" "  └─ Exposure Value" (exposureValue cs) 3 2047 1;
    toggleItem "autoFocus" "Auto Focus" (autoFocus cs);
    rangeItem "focusValue" "  └─ Focus Value" (focusValue cs) 0 250 5;
    toggleItem "autoWhiteBalance" "Auto White Balance" (autoWhiteBalance cs);
    rangeItem "whiteBalanceValue" "  └─ White Balance Temp" (whiteBalanceValue cs) 2000 6500 10;
    selectItem "powerLineFrequency" "Power Line Filter"
      (getPowerLineDisplay (powerLineFrequency cs)) ["Disabled"; "50Hz"; "60Hz"] ].

Definition settings (st : State) : list Setting.Item :=
  catalog (currentSettings st) (currentFormat st).

(** *** Callbacks *)

Definition refreshSettings (st : State) : State :=
  let (cs, st) := call getCurrentSettings st in
  let st := setCurrentSettings cs st in
  let (cf, st) := call getCurrentVideoFormat st in
  let st := setCurrentFormat cf st in
  let (deviceStatus, st) := call getDeviceStatus st in
  setDeviceBusy (inUse deviceStatus) st.

Definition shouldShow (cs : WebcamSettings) (key : string) : bool :=
  if key === "exposureValue" then negb (autoExposure cs)
  else if key === "focusValue" then negb (autoFocus cs)
  else if key === "whiteBalanceValue" then negb (autoWhiteBalance cs)
  else true.

Definition shouldShowSetting (st : State) (key : string) : bool :=
  shouldShow (currentSettings st) key.

Definition isManualControlDisabled (st : State) (key : string) : bool :=
  if key === "exposureValue" then autoExposure (currentSettings st)
  else if key === "focusValue" then autoFocus (currentSettings st)
  else if key === "whiteBalanceValue" then autoWhiteBalance (currentSettings st)
  else false.

(** [settings.filter(s => shouldShowSetting(s.key))]. *)
Definition visibleSettings (st : State) : list Setting.Item :=
  filter (fun s => shouldShowSetting st (Setting.key s)) (settings st).

(** [setNotification] with the new content, then [setTimeout(.., 2000)]:
    one more callback is pending; nothing is done to the ones already there. *)
Definition showNotification (message : string) (type : Notification.Type_)
    (st : State) : State :=
  let st := setNotification
      {| Notification.message := message; Notification.type := type;
         Notification.visible := true |} st in
  withTimers (clock st) (timers st ++ [clock st + 2000]) st.

(** The callback given to [setTimeout]:
    [setNotification(prev => ({ ...prev, visible: false }))]. *)
Definition expire (st : State) : State :=
  setNotification
    {| Notification.message := Notification.message (notification st);
       Notification.type := Notification.type (notification st);
       Notification.visible := false |} st.

(** Time passes: every callback that has come due runs, oldest first. *)
Definition elapse (dt : Z) (st : State) : State :=
  let now := clock st + dt in
  let due := filter (fun t => t <=? now) (timers st) in
  let pending := filter (fun t => negb (t <=? now)) (timers st) in
  withTimers now pending (fold_left (fun s _ => expire s) due st).

Definition applySetting (key : string) (value : Value) (st : State) : State :=
  let st :=
    if key === "brightness" then run (setBrightness (asNumber value)) st
    else if key === "contrast" then run (setContrast (asNumber value)) st
    else if key === "saturation" then run (setSaturation (asNumber value)) st
    else if key === "sharpness" then run (setSharpness (asNumber value)) st
    else if key === "gain" then run (setGain (asNumber value)) st
    else if key === "autoExposure" then run (setAutoExposure (truthy value)) st
    else if key === "exposureValue" then run (setExposureValue (asNumber value)) st
    else if key === "autoFocus" then run (setAutoFocus (truthy value)) st
    else if key === "focusValue" then run (setFocusValue (asNumber value)) st
    else if key === "autoWhiteBalance" then run (setAutoWhiteBalance (truthy value)) st
    else if key === "whiteBalanceValue" then run (setWhiteBalanceValue (asNumber value)) st
    else st in
  refreshSettings st.

(** [settings.find(s => s.key === k)]. *)
Definition findSetting (st : State) (k : string) : option Setting.Item :=
  find (fun s => Setting.key s === k) (settings st).

(** [const [a, b] = text.split('x').map(Number)]: the [i]-th of them. *)
Definition dimension (text : string) (i : nat) : option Z :=
  match nth_error (map Js.Number (Js.split "x" text)) i with
  | Some n => n
  | None => None
  end.

Definition applySelectSetting (key value : string) (st : State) : State :=
  let st :=
    if key === "resolution" then
      let width := dimension value 0 in
      let height := dimension value 1 in
      let currentFormat := valueOr (findSetting st "format") "MJPG" in
      let (formatResult, st) := call (setVideoFormat width height currentFormat) st in
      if negb (success formatResult) && isDeviceBusy formatResult
      then showNotification "Cannot change resolution: camera is in use" Notification.error st
      else st
    else if key === "format" then
      let currentRes := valueOr (findSetting st "resolution") "1920x1080" in
      let w := dimension currentRes 0 in
      let h := dimension currentRes 1 in
      let (formatChangeResult, st) := call (setVideoFormat w h value) st in
      if negb (success formatChangeResult) && isDeviceBusy formatChangeResult
      then showNotification "Cannot change pixel format: camera is in use" Notification.error st
      else st
    else if key === "framerate" then
      let fps := Js.parseInt (Js.remove_first "fps" value) in
      let (frameRateResult, st) := call (setFrameRate fps) st in
      if negb (success frameRateResult) && isDeviceBusy frameRateResult
      then showNotification "Cannot change frame rate: camera is in use" Notification.error st
      else st
    else if key === "powerLineFrequency" then
      let freq := if value === "50Hz" then 1 else if value === "60Hz" then 2 else 0 in
      run (setPowerLineFrequency freq) st
    else st in
  refreshSettings st.

(** The [range] case of [adjustCurrentSetting]: the value handed on. *)
Definition rangeNewValue (setting : Setting.Item) (delta : Z) : Z :=
  let step := Js.orField (Setting.step setting) 1 in
  let min := Js.orField (Setting.min setting) 0 in
  let max := Js.orField (Setting.max setting) 255 in
  Z.max min (Z.min max (asNumber (Setting.value setting) + delta * step)).

(** The [select] case: the index computed, and the option handed on. *)
Definition selectNewIndex (options : list string) (value : Value) (delta : Z) : Z :=
  let currentIndex := indexOfValue options value in
  Z.max 0 (Z.min (Js.len options - 1) (currentIndex + delta)).

Definition selectNewValue (options : list string) (value : Value) (delta : Z)
    : option string :=
  Js.at_ options (selectNewIndex options value delta).

(** [adjustCurrentSetting] once [setting] is known to be defined.  In the
    [select] case [options[newIndex]] is a string because no options array
    of the catalog is empty (lemma [selectNewValue_defined]). *)
Definition adjustSetting (setting : Setting.Item) (delta : Z) (st : State) : State :=
  let isFormatSetting :=
    Js.mem ["resolution"; "format"; "framerate"] (Setting.key setting) in
  if deviceBusy st && isFormatSetting then
    showNotification "Cannot change: camera is in use" Notification.error st
  else if isManualControlDisabled st (Setting.key setting) then
    let autoSetting := getAutoSettingName (Setting.key setting) in
    showNotification ("Cannot adjust: " ++ autoSetting ++ " is enabled")
      Notification.error st
  else
    match Setting.type setting with
    | Setting.range =>
        applySetting (Setting.key setting) (VNum (rangeNewValue setting delta)) st
    | Setting.select =>
        match Setting.options setting with
        | Some options =>
            match selectNewValue options (Setting.value setting) delta with
            | Some v => applySelectSetting (Setting.key setting) v st
            | None => st
            end
        | None => st
        end
    | Setting.toggle =>
        applySetting (Setting.key setting) (VBool (negb (truthy (Setting.value setting)))) st
    end.

Definition adjustCurrentSetting (delta : Z) (st : State) : State :=
  match Js.at_ (visibleSettings st) (selectedIndex st) with
  | None => st
  | Some setting => adjustSetting setting delta st
  end.

Definition closed : Dialog.State :=
  {| Dialog.type := Dialog.none; Dialog.title := None; Dialog.message := None |}.

Definition errorDialog (title : string) (errors : list string) : Dialog.State :=
  {| Dialog.type := Dialog.error; Dialog.title := Some title;
     Dialog.message := Some (Js.join ". " errors ++ ".") |}.

Definition applyOptimalSettings (st : State) : State :=
  let st := showNotification "Applying optimal settings..." Notification.info st in
  let (result, st) := call Webcam.applyOptimalSettings st in
  let st := refreshSettings st in
  if ok result then
    showNotification "Optimal settings applied successfully!" Notification.success st
  else if Js.len (errors result) >? 0 then
    setDialog (errorDialog "Optimal Settings - Partial Success" (errors result)) st
  else
    showNotification "Failed to apply optimal settings" Notification.error st.

Definition resetToDefaults (st : State) : State :=
  let st := showNotification "Resetting to factory defaults..." Notification.info st in
  let (result, st) := call Webcam.resetToDefaults st in
  let st := refreshSettings st in
  let st :=
    if ok result then
      showNotification "Factory defaults restored successfully!" Notification.success st
    else if Js.len (errors result) >? 0 then
      setDialog (errorDialog "Reset to Defaults - Partial Success" (errors result)) st
    else
      showNotification "Failed to reset to defaults" Notification.error st in
  setDialog closed st.

Definition resetDialog : Dialog.State :=
  {| Dialog.type := Dialog.reset;
     Dialog.title := Some "Reset to Factory Defaults";
     Dialog.message := Some ("This will reset all settings to factory defaults." ++ nl
                             ++ "Are you sure you want to continue?") |}.

Definition helpDialog : Dialog.State :=
  {| Dialog.type := Dialog.help; Dialog.title := None; Dialog.message := None |}.

(** The handler given to [useInput]. *)
Definition useInput (input : string) (key : Key) (st : State) : State :=
  if negb (Dialog.isNone (dialog st)) then
    if Dialog.isReset (dialog st) then
      if (input === "y") || (input === "Y") then
        resetToDefaults (setDialog closed st)
      else if (input === "n") || (input === "N") || escape key then
        setDialog closed st
      else st
    else
      if return_ key || escape key || (input === "q") then setDialog closed st
      else st
  else
    if upArrow key then
      setSelectedIndex (Z.max 0 (selectedIndex st - 1)) st
    else if downArrow key then
      setSelectedIndex (Z.min (Js.len (visibleSettings st) - 1) (selectedIndex st + 1)) st
    else if leftArrow key then adjustCurrentSetting (-1) st
    else if rightArrow key then adjustCurrentSetting 1 st
    else if return_ key then adjustCurrentSetting 0 st
    else if pageUp key then adjustCurrentSetting (-10) st
    else if pageDown key then adjustCurrentSetting 10 st
    else if (input === "o") || (input === "O") then applyOptimalSettings st
    else if (input === "r") || (input === "R") then setDialog resetDialog st
    else if (input === "i") || (input === "I") then
      let (info, st) := call getDetailedInfo st in
      setDialog {| Dialog.type := Dialog.info;
                   Dialog.title := Some "Detailed Camera Information";
                   Dialog.message := Some info |} st
    else if (input === "h") || (input === "H") || (input === "?") then
      setDialog helpDialog st
    else if (input === "q") || (input === "Q") || (ctrl key && (input === "c")) then
      exit st
    else st.

(** The first render: the initial values of the [useState] calls. *)
Definition mount (w : World) : State :=
  let (cs, w) := getCurrentSettings w in
  let (cf, w) := getCurrentVideoFormat w in
  {| currentSettings := cs; currentFormat := cf; selectedIndex := 0;
     deviceBusy := false; dialog := closed;
     notification := {| Notification.message := ""; Notification.type := Notification.info;
                        Notification.visible := false |};
     webcam := w; clock := 0; timers := []; exited := false |}.

End Ui.

(* ================================================================== *)
(** ** A camera to run the model on *)

Module Sim.

Import Webcam.

(** The value a control holds: what the last [--set-ctrl] on it wrote, or
    the start value when there was none. *)
Fixpoint lastCtrl (control : string) (start : Z) (h : list Cmd) : Z :=
  match h with
  | SetCtrl c v :: rest => lastCtrl control (if String.eqb c control then v else start) rest
  | _ :: rest => lastCtrl control start rest
  | [] => start
  end.

(** All three automatic modes are off when the camera is plugged in. *)
Definition startValue (control : string) : Z :=
  if String.eqb control "auto_exposure" then 1
  else if String.eqb control "exposure_time_absolute" then 250
  else if String.eqb control "white_balance_temperature" then 4000
  else if String.eqb control "power_line_frequency" then 2
  else if String.eqb control "brightness" then 128
  else if String.eqb control "contrast" then 128
  else if String.eqb control "saturation" then 128
  else if String.eqb control "sharpness" then 128
  else 0.

Definition busyText : string :=
  "VIDIOC_S_FMT: failed: Device or resource busy".

Definition fmtText (pixelFormat : string) : string :=
  "Format Video Capture:" ++ nl
  ++ "	Width/Height      : 1280/720" ++ nl
  ++ "	Pixel Format      : '" ++ pixelFormat ++ "'" ++ nl.

Definition parmText : string :=
  "Streaming Parameters Video Capture:" ++ nl
  ++ "	Frames per second: 30.000 (30/1)" ++ nl.

(** A camera that stores what it is told.  When [streaming] (another
    program holds the stream) the format and frame-rate commands fail with
    the busy message, and the controls are still taken. *)
Definition camera (streaming : bool) (pixelFormat : string) (h : list Cmd) (c : Cmd)
    : Outcome :=
  match c with
  | GetCtrl control =>
      Done (control ++ ": " ++ Js.toStr (lastCtrl control (startValue control) h) ++ nl)
  | GetFmtVideo => if streaming then Thrown busyText else Done (fmtText pixelFormat)
  | GetParm => Done parmText
  | SetFmtVideo _ _ _ => if streaming then Thrown busyText else Done ""
  | SetParm _ => if streaming then Thrown busyText else Done ""
  | _ => Done ""
  end.

Definition plugged (streaming : bool) (pixelFormat : string) : World :=
  {| history := []; respond := camera streaming pixelFormat |}.

Definition noKey : Ui.Key :=
  {| Ui.upArrow := false; Ui.downArrow := false; Ui.leftArrow := false;
     Ui.rightArrow := false; Ui.return_ := false; Ui.escape := false;
     Ui.pageUp := false; Ui.pageDown := false; Ui.ctrl := false |}.

Definition down : Ui.Key :=
  {| Ui.upArrow := false; Ui.downArrow := true; Ui.leftArrow := false;
     Ui.rightArrow := false; Ui.return_ := false; Ui.escape := false;
     Ui.pageUp := false; Ui.pageDown := false; Ui.ctrl := false |}.

Definition right : Ui.Key :=
  {| Ui.upArrow := false; Ui.downArrow := false; Ui.leftArrow := false;
     Ui.rightArrow := true; Ui.return_ := false; Ui.escape := false;
     Ui.pageUp := false; Ui.pageDown := false; Ui.ctrl := false |}.

Definition esc : Ui.Key :=
  {| Ui.upArrow := false; Ui.downArrow := false; Ui.leftArrow := false;
     Ui.rightArrow := false; Ui.return_ := false; Ui.escape := true;
     Ui.pageUp := false; Ui.pageDown := false; Ui.ctrl := false |}.

Definition up : Ui.Key :=
  {| Ui.upArrow := true; Ui.downArrow := false; Ui.leftArrow := false;
     Ui.rightArrow := false; Ui.return_ := false; Ui.escape := false;
     Ui.pageUp := false; Ui.pageDown := false; Ui.ctrl := false |}.

Definition enter : Ui.Key :=
  {| Ui.upArrow := false; Ui.downArrow := false; Ui.leftArrow := false;
     Ui.rightArrow := false; Ui.return_ := true; Ui.escape := false;
     Ui.pageUp := false; Ui.pageDown := false; Ui.ctrl := false |}.

(** A key pressed [n] times. *)
Definition presses (n : nat) (input : string) (key : Ui.Key) (st : Ui.State) : Ui.State :=
  Nat.iter n (Ui.useInput input key) st.

(** The application just started on an idle camera. *)
Definition started : Ui.State := Ui.mount (plugged false "MJPG").

(** The cursor taken down to the last of the fifteen rows. *)
Definition atLastRow : Ui.State := presses 14 "" down started.

(** The cursor on the Auto Exposure row. *)
Definition atAutoExposure : Ui.State := presses 8 "" down started.

(** Auto Exposure switched on with Enter: the Exposure Value row is gone. *)
Definition autoExposureOn : Ui.State := Ui.useInput "" enter atAutoExposure.


(** The same on a camera another program is streaming from. *)
Definition confirmingBusy : Ui.State := Ui.useInput "r" noKey (Ui.mount (plugged true "MJPG")).

(** On a streaming camera: brightness raised once (the refresh that follows
    finds the device in use), then the cursor taken back to Resolution. *)
Definition busyAtResolution : Ui.State :=
  presses 3 "" up (Ui.useInput "" right (presses 3 "" down (Ui.mount (plugged true "MJPG")))).

(** A camera whose pixel format is none of the two options; the cursor is
    on the Pixel Format row. *)
Definition atForeignFormat : Ui.State :=
  Ui.useInput "" down (Ui.mount (plugged false "H264")).

End Sim.

(* ================================================================== *)
(** ** Definitions used to state the properties *)

Module Props.

Import Webcam Ui.

(** The commands of [applyOptimalSettings], in the order they are run. *)
Definition optimalCommands : list Cmd :=
  [ SetFmtVideo (Some 1920) (Some 1080) "MJPG";
    SetParm (Some 30);
    SetCtrl "auto_exposure" 3;
    SetCtrl "focus_automatic_continuous" 1;
    SetCtrl "white_balance_automatic" 1;
    SetCtrl "power_line_frequency" 2;
    SetCtrl "saturation" 128;
    SetCtrl "sharpness" 128;
    SetCtrl "brightness" 128;
    SetCtrl "contrast" 128 ].

(** The commands of [resetToDefaults], in the order they are run. *)
Definition resetCommands : list Cmd :=
  [ SetFmtVideo (Some 640) (Some 480) "YUYV";
    SetParm (Some 30);
    SetCtrl "brightness" 128;
    SetCtrl "contrast" 128;
    SetCtrl "saturation" 128;
    SetCtrl "sharpness" 128;
    SetCtrl "gain" 0;
    SetCtrl "auto_exposure" 1;
    SetCtrl "focus_automatic_continuous" 0;
    SetCtrl "white_balance_automatic" 1;
    SetCtrl "power_line_frequency" 1;
    SetCtrl "backlight_compensation" 0 ].

(** The messages one format or frame-rate step contributes, given how its
    command ended. *)
Definition failureOf (r : Outcome) (busy other : string) : list string :=
  match r with
  | Done _ => []
  | Thrown errorMsg =>
      if Js.includes "Device or resource busy" errorMsg then [busy] else [other]
  end.

(** How the world answers the [n]-th command of a sequence run from [w]. *)
Definition answer (w : World) (cmds : list Cmd) (n : nat) : Outcome :=
  match nth_error cmds n with
  | Some c => respond w (history w ++ firstn n cmds)%list c
  | None => Done ""
  end.

(** The world [w'] is [w] after some more commands. *)
Definition grows (w w' : World) : Prop :=
  respond w' = respond w /\ exists more, history w' = (history w ++ more)%list.

(** The settings that reconfigure the video stream. *)
Definition exclusiveKeys : list string := ["resolution"; "format"; "framerate"].

Definition note (message : string) (type : Notification.Type_) (visible : bool)
    : Notification.State :=
  {| Notification.message := message; Notification.type := type;
     Notification.visible := visible |}.

(** Everything but the notification and its timers is as before: no command
    was run, no setting, cursor or dialog changed. *)
Definition onlyNotified (st st' : State) : Prop :=
  webcam st' = webcam st /\
  currentSettings st' = currentSettings st /\
  currentFormat st' = currentFormat st /\
  selectedIndex st' = selectedIndex st /\
  deviceBusy st' = deviceBusy st /\
  dialog st' = dialog st /\
  exited st' = exited st.


(** Two states that differ at most in [deviceBusy]. *)
Definition agreeUpToBusy (a b : State) : Prop :=
  webcam a = webcam b /\
  currentSettings a = currentSettings b /\
  currentFormat a = currentFormat b /\
  selectedIndex a = selectedIndex b /\
  dialog a = dialog b /\
  notification a = notification b /\
  clock a = clock b /\
  timers a = timers b /\
  exited a = exited b.

(** The three dependency rules: subordinate key, the name of its automatic
    mode in messages, and the flag that controls it. *)
Definition dependencyRules : list (string * string * (WebcamSettings -> bool)) :=
  [ ("exposureValue", "Auto Exposure", autoExposure);
    ("focusValue", "Auto Focus", autoFocus);
    ("whiteBalanceValue", "Auto White Balance", autoWhiteBalance) ].

Definition subordinateKeys : list string :=
  ["exposureValue"; "focusValue"; "whiteBalanceValue"].

(** The catalog entry [s] showing the number [v]. *)
Definition withValue (s : Setting.Item) (v : Z) : Setting.Item :=
  {| Setting.key := Setting.key s; Setting.label := Setting.label s;
     Setting.type := Setting.type s; Setting.value := VNum v;
     Setting.options := Setting.options s; Setting.min := Setting.min s;
     Setting.max := Setting.max s; Setting.step := Setting.step s |}.

(** The selection invariant. *)
Definition indexInRange (st : State) : Prop :=
  0 < Js.len (visibleSettings st) ->
  0 <= selectedIndex st <= Js.len (visibleSettings st) - 1.

(** The key of the row under the cursor. *)
Definition selectedKey (st : State) : option string :=
  option_map Setting.key (Js.at_ (visibleSettings st) (selectedIndex st)).

(** From [st] to [st'] no automatic mode changed, except possibly the one
    whose toggle is under the cursor in [st]. *)
Definition onlySelectedFlagMayChange (st st' : State) : Prop :=
  (selectedKey st <> Some "autoExposure" ->
   autoExposure (currentSettings st') = autoExposure (currentSettings st)) /\
  (selectedKey st <> Some "autoFocus" ->
   autoFocus (currentSettings st') = autoFocus (currentSettings st)) /\
  (selectedKey st <> Some "autoWhiteBalance" ->
   autoWhiteBalance (currentSettings st') = autoWhiteBalance (currentSettings st)).

(** The keys of the catalog, and those shown for given automatic modes. *)
Definition catalogKeys : list string :=
  [ "resolution"; "format"; "framerate"; "brightness"; "contrast"; "saturation";
    "sharpness"; "gain"; "autoExposure"; "exposureValue"; "autoFocus";
    "focusValue"; "autoWhiteBalance"; "whiteBalanceValue"; "powerLineFrequency" ].

Definition visibleKeys (cs : WebcamSettings) : list string :=
  filter (shouldShow cs) catalogKeys.

(** Two notifications, the second one 500 ms after the first. *)
Definition twoNotifications (m1 : string) (t1 : Notification.Type_)
    (m2 : string) (t2 : Notification.Type_) (st : State) : State :=
  showNotification m2 t2 (elapse 500 (showNotification m1 t1 st)).

(** What may follow a number in a text for [parseInt] to stop there: the
    end of the text, or a character that is no digit, and no [x] either
    (after a lone [0] that would start a hexadecimal numeral). *)
Definition endsNumber (rest : string) : Prop :=
  match rest with
  | EmptyString => True
  | String c _ => Js.dec_val c = None /\ c <> "x"%char /\ c <> "X"%char
  end.

(** The commands of [getCurrentSettings], in the order they are run. *)
Definition settingsQueries : list Cmd :=
  [ GetCtrl "brightness"; GetCtrl "contrast"; GetCtrl "saturation"; GetCtrl "sharpness";
    GetCtrl "gain"; GetCtrl "auto_exposure"; GetCtrl "focus_automatic_continuous";
    GetCtrl "white_balance_automatic"; GetCtrl "power_line_frequency";
    GetCtrl "exposure_time_absolute"; GetCtrl "focus_absolute";
    GetCtrl "white_balance_temperature" ].

(** The commands that only read. *)
Definition isQuery (c : Cmd) : bool :=
  match c with
  | GetCtrl _ | GetFmtVideo | GetParm | ListCtrls => true
  | _ => false
  end.

(** The control each range row writes to ([applySetting] and the setters). *)
Definition rangeControls : list (string * string) :=
  [ ("brightness", "brightness"); ("contrast", "contrast"); ("saturation", "saturation");
    ("sharpness", "sharpness"); ("gain", "gain");
    ("exposureValue", "exposure_time_absolute"); ("focusValue", "focus_absolute");
    ("whiteBalanceValue", "white_balance_temperature") ].

(** The control each toggle row writes to, with the numbers for on and off. *)
Definition toggleControls : list (string * string * Z * Z) :=
  [ ("autoExposure", "auto_exposure", 3, 1);
    ("autoFocus", "focus_automatic_continuous", 1, 0);
    ("autoWhiteBalance", "white_balance_automatic", 1, 0) ].

(** A command that failed with the busy message. *)
Definition isBusyOutcome (r : Outcome) : bool :=
  match r with
  | Done _ => false
  | Thrown errorMsg => Js.includes "Device or resource busy" errorMsg
  end.

(** How the three format settings are named in the busy notification. *)
Definition exclusiveLabels : list (string * string) :=
  [ ("resolution", "resolution"); ("format", "pixel format"); ("framerate", "frame rate") ].

Definition resolutionOptions : list string :=
  ["640x480"; "800x600"; "1024x576"; "1280x720"; "1920x1080"].

End Props.

(* ================================================================== *)
(** ** The controller: composite operations *)

Section Controller.

Import Webcam Props.

Lemma pushFailure_failureOf (errors : list string) (r : Outcome) (busy other : string) :
  pushFailure errors (busyOrUnknown r) busy other = (errors ++ failureOf r busy other)%list.
Proof.
  destruct r as [out | msg]; unfold pushFailure, busyOrUnknown, failureOf; simpl.
  - now rewrite app_nil_r.
  - destruct (Js.includes "Device or resource busy" msg); reflexivity.
Qed.

Lemma noErrors_iff (errors : list string) : noErrors errors = true <-> errors = [].
Proof.
  destruct errors; simpl; split; intro H; try reflexivity; discriminate H.
Qed.

Ltac run_methods :=
  unfold Webcam.applyOptimalSettings, Webcam.resetToDefaults, setVideoFormat,
    setFrameRate, setAutoExposure, setAutoFocus, setAutoWhiteBalance,
    setPowerLineFrequency, setSaturation, setSharpness, setBrightness, setContrast,
    setGain, setControl, bind, ret, execSync;
  cbn [fst snd history respond ok errors].

(** C8.  Both composite operations run their whole command sequence whatever
    the outcome of each command: after [applyOptimalSettings] (and after
    [resetToDefaults]) the commands run are the earlier ones followed by the
    format change, the frame-rate change and the control updates of the
    operation, in that order.  The error list holds the message of the
    format step when it failed, then the message of the frame-rate step when
    it failed, and [success] is true exactly when the list is empty. *)
Theorem composite_runs_whole_sequence (w : World) :
  (let r := fst (Webcam.applyOptimalSettings w) in
   let w' := snd (Webcam.applyOptimalSettings w) in
   history w' = (history w ++ optimalCommands)%list /\
   respond w' = respond w /\
   errors r =
     (failureOf (answer w optimalCommands 0)
        "Cannot change video format: camera is in use by another application"
        "Failed to set video format"
      ++ failureOf (answer w optimalCommands 1)
        "Cannot change frame rate: camera is in use by another application"
        "Failed to set frame rate")%list /\
   (ok r = true <-> errors r = [])) /\
  (let r := fst (Webcam.resetToDefaults w) in
   let w' := snd (Webcam.resetToDefaults w) in
   history w' = (history w ++ resetCommands)%list /\
   respond w' = respond w /\
   errors r =
     (failureOf (answer w resetCommands 0)
        "Cannot reset video format: camera is in use by another application"
        "Failed to reset video format"
      ++ failureOf (answer w resetCommands 1)
        "Cannot reset frame rate: camera is in use by another application"
        "Failed to reset frame rate")%list /\
   (ok r = true <-> errors r = [])).
Proof.
  split; cbv zeta; run_methods; repeat split; try apply noErrors_iff.
  - unfold optimalCommands. repeat rewrite <- app_assoc. reflexivity.
  - rewrite !pushFailure_failureOf. unfold answer.
    cbn [nth_error optimalCommands firstn app]. now rewrite app_nil_r.
  - unfold resetCommands. repeat rewrite <- app_assoc. reflexivity.
  - rewrite !pushFailure_failureOf. unfold answer.
    cbn [nth_error resetCommands firstn app]. now rewrite app_nil_r.
Qed.

Lemma grows_refl (w : World) : grows w w.
Proof. split; [reflexivity | exists []; now rewrite app_nil_r]. Qed.







End Controller.

(* ================================================================== *)
(** ** The interface: what a handler leaves alone *)

Section Frames.

Import Webcam Ui Props.

Lemma showNotification_onlyNotified (m : string) (t : Notification.Type_) (st : State) :
  onlyNotified st (showNotification m t st).
Proof. repeat split. Qed.


Lemma mem_exclusive (k : string) :
  In k exclusiveKeys -> Js.mem ["resolution"; "format"; "framerate"] k = true.
Proof. intros [H | [H | [H | []]]]; subst; reflexivity. Qed.

Lemma mem_not_exclusive (k : string) :
  ~ In k exclusiveKeys -> Js.mem ["resolution"; "format"; "framerate"] k = false.
Proof.
  intro H. unfold Js.mem, existsb.
  destruct (String.eqb_spec k "resolution") as [E|_]; [exfalso; apply H; subst; simpl; auto|].
  destruct (String.eqb_spec k "format") as [E|_]; [exfalso; apply H; subst; simpl; auto|].
  destruct (String.eqb_spec k "framerate") as [E|_]; [exfalso; apply H; subst; simpl; auto|].
  reflexivity.
Qed.

Lemma run_busy {A : Type} (m : M A) (b : bool) (st : State) :
  run m (setDeviceBusy b st) = setDeviceBusy b (run m st).
Proof. reflexivity. Qed.

Lemma refreshSettings_busy (b : bool) (st : State) :
  refreshSettings (setDeviceBusy b st) = refreshSettings st.
Proof. reflexivity. Qed.

Lemma refreshSettings_notified (m : string) (t : Notification.Type_) (b : bool) (st : State) :
  refreshSettings (showNotification m t (setDeviceBusy b st))
  = refreshSettings (showNotification m t st).
Proof. reflexivity. Qed.

Lemma applySetting_busy (k : string) (v : Value) (b : bool) (st : State) :
  applySetting k v (setDeviceBusy b st) = applySetting k v st.
Proof.
  unfold applySetting.
  repeat match goal with |- context [if ?c then _ else _] => destruct c end;
    match goal with
    | |- refreshSettings (run ?m _) = _ => exact (refreshSettings_busy b (run m st))
    | |- _ => exact (refreshSettings_busy b st)
    end.
Qed.

Lemma applySelectSetting_busy (k v : string) (b : bool) (st : State) :
  applySelectSetting k v (setDeviceBusy b st) = applySelectSetting k v st.
Proof.
  unfold applySelectSetting, call. cbn [fst snd].
  change (webcam (setDeviceBusy b st)) with (webcam st).
  change (findSetting (setDeviceBusy b st)) with (findSetting st).
  repeat match goal with |- context [if ?c then _ else _] => destruct c end;
    match goal with
    | |- refreshSettings (withWorld ?w _) = _ =>
        exact (refreshSettings_busy b (withWorld w st))
    | |- refreshSettings (showNotification ?m ?t (withWorld ?w _)) = _ =>
        exact (refreshSettings_busy b (showNotification m t (withWorld w st)))
    | |- refreshSettings (run ?m _) = _ => exact (refreshSettings_busy b (run m st))
    | |- _ => exact (refreshSettings_busy b st)
    end.
Qed.

Lemma visibleSettings_busy (b : bool) (st : State) :
  visibleSettings (setDeviceBusy b st) = visibleSettings st.
Proof.
  unfold visibleSettings, shouldShowSetting, settings.
  cbn [setDeviceBusy currentSettings currentFormat]. reflexivity.
Qed.

Lemma selectedIndex_busy (b : bool) (st : State) :
  selectedIndex (setDeviceBusy b st) = selectedIndex st.
Proof. reflexivity. Qed.

Lemma isManualControlDisabled_busy (b : bool) (st : State) (k : string) :
  isManualControlDisabled (setDeviceBusy b st) k = isManualControlDisabled st k.
Proof.
  unfold isManualControlDisabled. cbn [setDeviceBusy currentSettings]. reflexivity.
Qed.

Lemma agreeUpToBusy_refl (st : State) : agreeUpToBusy st st.
Proof. repeat split. Qed.

Lemma refreshSettings_index (st : State) :
  selectedIndex (refreshSettings st) = selectedIndex st.
Proof. reflexivity. Qed.

Lemma applySetting_index (k : string) (v : Value) (st : State) :
  selectedIndex (applySetting k v st) = selectedIndex st.
Proof.
  unfold applySetting.
  repeat match goal with |- context [if ?c then _ else _] => destruct c end; reflexivity.
Qed.

Lemma applySelectSetting_index (k v : string) (st : State) :
  selectedIndex (applySelectSetting k v st) = selectedIndex st.
Proof.
  unfold applySelectSetting, call. cbn [fst snd].
  repeat match goal with |- context [if ?c then _ else _] => destruct c end; reflexivity.
Qed.

Lemma adjustSetting_index (s : Setting.Item) (delta : Z) (st : State) :
  selectedIndex (adjustSetting s delta st) = selectedIndex st.
Proof.
  unfold adjustSetting.
  destruct (deviceBusy st && _); [reflexivity|].
  destruct (isManualControlDisabled st _); [reflexivity|].
  destruct (Setting.type s).
  - apply applySetting_index.
  - apply applySetting_index.
  - destruct (Setting.options s); [|reflexivity].
    destruct (selectNewValue _ _ _); [apply applySelectSetting_index | reflexivity].
Qed.

Lemma adjustCurrentSetting_index (delta : Z) (st : State) :
  selectedIndex (adjustCurrentSetting delta st) = selectedIndex st.
Proof.
  unfold adjustCurrentSetting.
  destruct (Js.at_ _ _); [apply adjustSetting_index | reflexivity].
Qed.

Lemma applyOptimalSettings_index (st : State) :
  selectedIndex (Ui.applyOptimalSettings st) = selectedIndex st.
Proof.
  unfold Ui.applyOptimalSettings, call. cbn [fst snd].
  repeat match goal with |- context [if ?c then _ else _] => destruct c end; reflexivity.
Qed.

Lemma resetToDefaults_index (st : State) :
  selectedIndex (Ui.resetToDefaults st) = selectedIndex st.
Proof.
  unfold Ui.resetToDefaults, call. cbn [fst snd].
  repeat match goal with |- context [if ?c then _ else _] => destruct c end; reflexivity.
Qed.


End Frames.

(* ================================================================== *)
(** ** Adjusting the selected setting *)

Section Adjusting.

Import Webcam Ui Props.

(** C10.  When [selectedIndex] points outside the visible settings,
    [adjustCurrentSetting] returns the state it was given, whatever the
    delta: no command is run, no notification is shown, no state variable
    changes. *)
Theorem adjust_out_of_range_is_noop (st : State) (delta : Z) :
  Js.at_ (visibleSettings st) (selectedIndex st) = None ->
  adjustCurrentSetting delta st = st.
Proof.
  intro H. unfold adjustCurrentSetting. now rewrite H.
Qed.

(** C5.  With the device busy and the cursor on resolution, format or
    framerate, an adjustment runs no command and changes nothing but the
    notification, which becomes the error "Cannot change: camera is in use".
    For a setting with any other key the outcome of the adjustment is the
    same whether the device is busy or not. *)
Theorem busy_locks_format_settings (st : State) (setting : Setting.Item) (delta : Z) :
  Js.at_ (visibleSettings st) (selectedIndex st) = Some setting ->
  (deviceBusy st = true -> In (Setting.key setting) exclusiveKeys ->
   onlyNotified st (adjustCurrentSetting delta st) /\
   notification (adjustCurrentSetting delta st)
   = note "Cannot change: camera is in use" Notification.error true) /\
  (~ In (Setting.key setting) exclusiveKeys ->
   forall b : bool,
     agreeUpToBusy (adjustCurrentSetting delta (setDeviceBusy b st))
                   (adjustCurrentSetting delta st)).
Proof.
  intro Hsel. split.
  - intros Hbusy Hkey. unfold adjustCurrentSetting. rewrite Hsel.
    unfold adjustSetting. rewrite Hbusy, (mem_exclusive _ Hkey). cbn [andb].
    split; [apply showNotification_onlyNotified | reflexivity].
  - intros Hkey b. unfold adjustCurrentSetting.
    rewrite visibleSettings_busy, selectedIndex_busy, Hsel. unfold adjustSetting.
    rewrite (mem_not_exclusive _ Hkey), !andb_false_r, isManualControlDisabled_busy.
    destruct (isManualControlDisabled st (Setting.key setting)).
    { repeat split. }
    destruct (Setting.type setting).
    + rewrite applySetting_busy. apply agreeUpToBusy_refl.
    + rewrite applySetting_busy. apply agreeUpToBusy_refl.
    + destruct (Setting.options setting) as [options|]; [|repeat split].
      destruct (selectNewValue options (Setting.value setting) delta); [|repeat split].
      rewrite applySelectSetting_busy. apply agreeUpToBusy_refl.
Qed.

Lemma busy_locks_format_settings_witness :
  onlyNotified Sim.busyAtResolution (adjustCurrentSetting 1 Sim.busyAtResolution) /\
  notification (adjustCurrentSetting 1 Sim.busyAtResolution)
  = note "Cannot change: camera is in use" Notification.error true.
Proof.
  pose proof (busy_locks_format_settings Sim.busyAtResolution
                (selectItem "resolution" "Resolution" "640x480"
                   ["640x480"; "800x600"; "1024x576"; "1280x720"; "1920x1080"]) 1) as H.
  destruct H as [H _].
  - vm_compute. reflexivity.
  - apply H.
    + vm_compute. reflexivity.
    + simpl. auto.
Defined.

Lemma adjust_out_of_range_is_noop_witness :
  adjustCurrentSetting 1 (Ui.applyOptimalSettings Sim.atLastRow)
  = Ui.applyOptimalSettings Sim.atLastRow.
Proof.
  refine (adjust_out_of_range_is_noop (Ui.applyOptimalSettings Sim.atLastRow) 1 _).
  vm_compute. reflexivity.
Defined.

Lemma rule_cases (sub autoName : string) (flag : WebcamSettings -> bool) :
  In (sub, autoName, flag) dependencyRules ->
  (sub = "exposureValue" /\ autoName = "Auto Exposure" /\ flag = autoExposure) \/
  (sub = "focusValue" /\ autoName = "Auto Focus" /\ flag = autoFocus) \/
  (sub = "whiteBalanceValue" /\ autoName = "Auto White Balance" /\ flag = autoWhiteBalance).
Proof.
  intros [H | [H | [H | []]]]; inversion H; subst; auto.
Qed.

Lemma not_subordinate (k : string) :
  ~ In k subordinateKeys ->
  (k === "exposureValue") = false /\ (k === "focusValue") = false
  /\ (k === "whiteBalanceValue") = false.
Proof.
  intro H. repeat split; apply String.eqb_neq; intro E; apply H; subst; simpl; auto.
Qed.

(** C6.  For each of the three rules, while the controlling automatic mode
    is on the subordinate key is not among the visible settings, so the
    cursor is never on it, and an adjustment aimed at a setting with that
    key runs no command and changes nothing but the notification ("Cannot
    adjust: .. is enabled").  A key outside the three rules is shown and is
    never locked by a rule, whatever the settings are. *)
Theorem dependency_rules_hide_and_lock :
  (forall (st : State) (sub autoName : string) (flag : WebcamSettings -> bool),
     In (sub, autoName, flag) dependencyRules ->
     flag (currentSettings st) = true ->
     ~ In sub (map Setting.key (visibleSettings st)) /\
     selectedKey st <> Some sub /\
     forall (setting : Setting.Item) (delta : Z),
       Setting.key setting = sub ->
       onlyNotified st (adjustSetting setting delta st) /\
       notification (adjustSetting setting delta st)
       = note ("Cannot adjust: " ++ autoName ++ " is enabled") Notification.error true) /\
  (forall (st : State) (k : string),
     ~ In k subordinateKeys ->
     shouldShowSetting st k = true /\
     isManualControlDisabled st k = false /\
     forall s : Setting.Item,
       In s (settings st) -> Setting.key s = k -> In s (visibleSettings st)).
Proof.
  split.
  - intros st sub autoName flag Hrule Hflag.
    assert (Hhidden : shouldShowSetting st sub = false).
    { unfold shouldShowSetting, shouldShow.
      destruct (rule_cases _ _ _ Hrule) as [[-> [_ ->]] | [[-> [_ ->]] | [-> [_ ->]]]];
        cbn; now rewrite Hflag. }
    assert (Hnot : ~ In sub (map Setting.key (visibleSettings st))).
    { intro Hin. apply in_map_iff in Hin. destruct Hin as [s [Hk Hs]].
      unfold visibleSettings in Hs. apply filter_In in Hs. destruct Hs as [_ Hs].
      rewrite Hk in Hs. congruence. }
    split; [exact Hnot|]. split.
    + unfold selectedKey, Js.at_. intro Hsel. apply Hnot.
      destruct (selectedIndex st <? 0); [discriminate|].
      destruct (nth_error (visibleSettings st) (Z.to_nat (selectedIndex st))) as [s|] eqn:E;
        [|discriminate].
      apply nth_error_In in E. injection Hsel as <-. now apply in_map.
    + intros setting delta Hkey. unfold adjustSetting. rewrite Hkey.
      destruct (rule_cases _ _ _ Hrule) as [[-> [-> ->]] | [[-> [-> ->]] | [-> [-> ->]]]];
        cbn [Js.mem existsb String.eqb Ascii.eqb Bool.eqb orb andb];
        rewrite andb_false_r; unfold isManualControlDisabled;
        cbn [String.eqb Ascii.eqb Bool.eqb]; rewrite Hflag;
        (split; [apply showNotification_onlyNotified | reflexivity]).
  - intros st k Hk. destruct (not_subordinate k Hk) as [E1 [E2 E3]].
    assert (Hshow : shouldShowSetting st k = true).
    { unfold shouldShowSetting, shouldShow. now rewrite E1, E2, E3. }
    split; [exact Hshow|]. split.
    + unfold isManualControlDisabled. now rewrite E1, E2, E3.
    + intros s Hin Hkey. unfold visibleSettings. apply filter_In. split; [exact Hin|].
      now rewrite Hkey.
Qed.

Lemma dependency_rules_hide_and_lock_witness :
  ~ In "exposureValue" (map Setting.key (visibleSettings Sim.autoExposureOn)) /\
  shouldShowSetting Sim.started "gain" = true.
Proof.
  split.
  - pose proof (proj1 dependency_rules_hide_and_lock Sim.autoExposureOn
                  "exposureValue" "Auto Exposure" autoExposure) as H.
    destruct H as [H _].
    + simpl. auto.
    + vm_compute. reflexivity.
    + exact H.
  - pose proof (proj2 dependency_rules_hide_and_lock Sim.started "gain") as H.
    destruct H as [H _].
    + simpl. intros [H | [H | [H | []]]]; discriminate H.
    + exact H.
Defined.

End Adjusting.

(* ================================================================== *)
(** ** The value handed to the controller *)

Section Values.

Import Webcam Ui Props.

Lemma clamp_in_range (lo hi x : Z) : lo <= hi -> lo <= Js.clamp lo hi x <= hi.
Proof. unfold Js.clamp. lia. Qed.

Lemma clamp_at_top (lo hi d : Z) : lo <= hi -> 0 <= d -> Js.clamp lo hi (hi + d) = hi.
Proof. unfold Js.clamp. lia. Qed.

Lemma clamp_at_bottom (lo hi d : Z) : lo <= hi -> d <= 0 -> Js.clamp lo hi (lo + d) = lo.
Proof. unfold Js.clamp. lia. Qed.

Lemma orNum_same (a b : Z) : a <> 0 \/ a = b -> Js.orNum a b = a.
Proof.
  unfold Js.orNum. destruct (Z.eqb_spec a 0); intros [H | H]; congruence.
Qed.

(** The [range] case with the three [||] defaults resolved: a lower bound of
    [0] is its own default, an upper bound or a step of [0] would not be. *)
Lemma rangeNewValue_clamp (s : Setting.Item) (v delta mn mx sp : Z) :
  Setting.min s = Some mn -> Setting.max s = Some mx -> Setting.step s = Some sp ->
  mx <> 0 -> sp <> 0 ->
  rangeNewValue (withValue s v) delta = Js.clamp mn mx (v + delta * sp).
Proof.
  intros Hmn Hmx Hsp Nmx Nsp. unfold rangeNewValue, withValue, Js.clamp.
  cbn [Setting.min Setting.max Setting.step Setting.value asNumber].
  rewrite Hmn, Hmx, Hsp. unfold Js.orField, Js.orNaN.
  rewrite (orNum_same sp 1), (orNum_same mx 255), (orNum_same mn 0); auto.
  destruct (Z.eq_dec mn 0); auto.
Qed.

Lemma catalog_range_is_number (cs : WebcamSettings) (cf : VideoFormat) (s : Setting.Item) :
  In s (catalog cs cf) -> Setting.type s = Setting.range ->
  exists v0 mn mx sp : Z,
    s = withValue s v0 /\
    Setting.min s = Some mn /\ Setting.max s = Some mx /\ Setting.step s = Some sp /\
    mn <= mx /\ 0 < sp /\ 0 < mx.
Proof.
  intros Hin Hty. unfold catalog in Hin. simpl in Hin.
  repeat (destruct Hin as [Hin | Hin];
          [subst s; try discriminate Hty;
           do 4 eexists; repeat split; try reflexivity; lia|]).
  contradiction.
Qed.

Lemma iter_fixed {A : Type} (f : A -> A) (x : A) (n : nat) : f x = x -> Nat.iter n f x = x.
Proof. intro H. induction n; simpl; congruence. Qed.

(** C7.  For every range setting of the catalog, with bounds [mn], [mx] and
    step [sp]: adjusting the value [v] by [delta] yields
    [clamp (v + delta * sp) mn mx], which lies between [mn] and [mx]; from the upper
    bound an adjustment upwards, repeated any number of times, stays at the
    upper bound, and likewise downwards from the lower bound. *)
Theorem range_adjust_clamps (cs : WebcamSettings) (cf : VideoFormat) (s : Setting.Item) :
  In s (catalog cs cf) -> Setting.type s = Setting.range ->
  exists v0 mn mx sp : Z,
    Setting.value s = VNum v0 /\
    Setting.min s = Some mn /\ Setting.max s = Some mx /\ Setting.step s = Some sp /\
    mn <= mx /\
    forall (v delta : Z) (n : nat),
      let adjust := fun x => rangeNewValue (withValue s x) delta in
      rangeNewValue s delta = Js.clamp mn mx (v0 + delta * sp) /\
      adjust v = Js.clamp mn mx (v + delta * sp) /\
      mn <= adjust v <= mx /\
      (0 <= delta -> Nat.iter n adjust mx = mx) /\
      (delta <= 0 -> Nat.iter n adjust mn = mn).
Proof.
  intros Hin Hty.
  destruct (catalog_range_is_number cs cf s Hin Hty)
    as [v0 [mn [mx [sp [Hv [Hmn [Hmx [Hsp [Hle [Hpos Hmxpos]]]]]]]]]].
  assert (Hspec : forall v delta,
             rangeNewValue (withValue s v) delta = Js.clamp mn mx (v + delta * sp)).
  { intros v delta. apply rangeNewValue_clamp; auto; lia. }
  exists v0, mn, mx, sp. repeat split; auto.
  - rewrite Hv. reflexivity.
  - rewrite Hv at 1. apply Hspec.
  - rewrite Hspec. apply clamp_in_range, Hle.
  - rewrite Hspec. apply clamp_in_range, Hle.
  - intro Hd. apply iter_fixed. rewrite Hspec. apply clamp_at_top; [exact Hle | nia].
  - intro Hd. apply iter_fixed. rewrite Hspec. apply clamp_at_bottom; [exact Hle | nia].
Qed.

Lemma range_adjust_clamps_witness :
  exists v0 mn mx sp : Z,
    Setting.value (rangeItem "focusValue" "  └─ Focus Value" 0 0 250 5) = VNum v0 /\
    Setting.min (rangeItem "focusValue" "  └─ Focus Value" 0 0 250 5) = Some mn /\
    Setting.max (rangeItem "focusValue" "  └─ Focus Value" 0 0 250 5) = Some mx /\
    Setting.step (rangeItem "focusValue" "  └─ Focus Value" 0 0 250 5) = Some sp /\
    mn <= mx /\
    forall (v delta : Z) (n : nat),
      let adjust := fun x =>
        rangeNewValue (withValue (rangeItem "focusValue" "  └─ Focus Value" 0 0 250 5) x) delta in
      rangeNewValue (rangeItem "focusValue" "  └─ Focus Value" 0 0 250 5) delta
      = Js.clamp mn mx (v0 + delta * sp) /\
      adjust v = Js.clamp mn mx (v + delta * sp) /\
      mn <= adjust v <= mx /\
      (0 <= delta -> Nat.iter n adjust mx = mx) /\
      (delta <= 0 -> Nat.iter n adjust mn = mn).
Proof.
  refine (range_adjust_clamps (currentSettings Sim.started) (currentFormat Sim.started)
            (rangeItem "focusValue" "  └─ Focus Value" 0 0 250 5) _ _).
  - vm_compute. do 11 right. left. reflexivity.
  - reflexivity.
Defined.

(** *** Select settings *)

Lemma indexOf_bounds (xs : list string) (v : string) :
  -1 <= Js.indexOf xs v < Js.len xs.
Proof.
  unfold Js.len. induction xs as [|x xs IH]; simpl Js.indexOf.
  - simpl. lia.
  - change (List.length (x :: xs)) with (S (List.length xs)).
    destruct (x === v); [lia|]. cbv zeta.
    destruct (Z.ltb_spec (Js.indexOf xs v) 0); lia.
Qed.

Lemma indexOf_absent (xs : list string) (v : string) :
  ~ In v xs -> Js.indexOf xs v = -1.
Proof.
  induction xs as [|x xs IH]; simpl; intro H; [reflexivity|].
  destruct (String.eqb_spec x v) as [E|E]; [exfalso; apply H; auto|].
  rewrite IH by (intro; apply H; auto). reflexivity.
Qed.

Lemma at_cons {A : Type} (x : A) (xs : list A) (i : Z) :
  0 <= i -> Js.at_ (x :: xs) (i + 1) = Js.at_ xs i.
Proof.
  intro H. unfold Js.at_.
  destruct (Z.ltb_spec (i + 1) 0); [lia|]. destruct (Z.ltb_spec i 0); [lia|].
  replace (Z.to_nat (i + 1)) with (S (Z.to_nat i)) by lia. reflexivity.
Qed.

Lemma indexOf_present (xs : list string) (v : string) :
  In v xs -> 0 <= Js.indexOf xs v /\ Js.at_ xs (Js.indexOf xs v) = Some v.
Proof.
  induction xs as [|x xs IH]; simpl; intro H; [contradiction|].
  destruct (String.eqb_spec x v) as [E|E].
  - subst. split; [lia | reflexivity].
  - destruct H as [H | H]; [contradiction|]. destruct (IH H) as [Hpos Hat].
    destruct (Z.ltb_spec (Js.indexOf xs v) 0); [lia|].
    split; [lia|]. now rewrite at_cons.
Qed.

Lemma at_in_range {A : Type} (xs : list A) (i : Z) :
  0 <= i <= Js.len xs - 1 -> exists r, Js.at_ xs i = Some r /\ In r xs.
Proof.
  unfold Js.at_, Js.len. intro H. destruct (Z.ltb_spec i 0); [lia|].
  destruct (nth_error xs (Z.to_nat i)) as [r|] eqn:E.
  - exists r. split; [reflexivity | now apply nth_error_In in E].
  - apply nth_error_None in E. lia.
Qed.

Lemma catalog_select_options (cs : WebcamSettings) (cf : VideoFormat) (s : Setting.Item) :
  In s (catalog cs cf) -> Setting.type s = Setting.select ->
  exists (options : list string) (current : string),
    Setting.options s = Some options /\ options <> [] /\ Setting.value s = VStr current.
Proof.
  intros Hin Hty. unfold catalog in Hin. simpl in Hin.
  repeat (destruct Hin as [Hin | Hin];
          [subst s; try discriminate Hty;
           do 2 eexists; repeat split; try reflexivity; discriminate|]).
  contradiction.
Qed.

(** What [selectNewValue] gives for any non-empty options array. *)
Lemma selectNewValue_defined (options : list string) (value : Value) (delta : Z) :
  options <> [] ->
  let i := indexOfValue options value in
  selectNewIndex options value delta = Js.clamp 0 (Js.len options - 1) (i + delta) /\
  0 <= selectNewIndex options value delta <= Js.len options - 1 /\
  exists r, selectNewValue options value delta = Some r /\ In r options /\
            (i = -1 -> delta <= 1 -> Js.at_ options 0 = Some r).
Proof.
  intros Hne i.
  assert (Hlen : 0 <= Js.len options - 1).
  { unfold Js.len. destruct options; [contradiction | simpl List.length; lia]. }
  assert (Hidx : 0 <= selectNewIndex options value delta <= Js.len options - 1).
  { unfold selectNewIndex. lia. }
  split; [reflexivity|]. split; [exact Hidx|].
  unfold selectNewValue. destruct (at_in_range options _ Hidx) as [r [Hr Hin]].
  exists r. repeat split; auto.
  intros Hi Hd. rewrite <- Hr. f_equal. unfold selectNewIndex. fold i. lia.
Qed.

(** C4, amended.  For every select setting of the catalog the options array
    is not empty, and for any current value and delta the new index is
    [clamp (indexOf value + delta) 0 (len - 1)] and the value handed on is
    the option at that index, a member of the options.  [indexOf] is the
    position of the current value when it is among the options and [-1]
    when it is not; in that case a delta of at most [+1] leads to the first
    option. *)
Theorem select_adjust_clamps (cs : WebcamSettings) (cf : VideoFormat) (s : Setting.Item) :
  In s (catalog cs cf) -> Setting.type s = Setting.select ->
  exists options : list string,
    Setting.options s = Some options /\ options <> [] /\
    forall (value : Value) (delta : Z),
      let i := indexOfValue options value in
      (forall t, value = VStr t -> In t options -> 0 <= i /\ Js.at_ options i = Some t) /\
      ((forall t, value = VStr t -> ~ In t options) -> i = -1) /\
      selectNewIndex options value delta = Js.clamp 0 (Js.len options - 1) (i + delta) /\
      exists r, selectNewValue options value delta = Some r /\ In r options /\
                (i = -1 -> delta <= 1 -> Js.at_ options 0 = Some r).
Proof.
  intros Hin Hty.
  destruct (catalog_select_options cs cf s Hin Hty) as [options [current [Ho [Hne _]]]].
  exists options. split; [exact Ho|]. split; [exact Hne|].
  intros value delta i. split; [|split; [|split]].
  - intros t -> Ht. apply indexOf_present, Ht.
  - intro Habs. subst i. destruct value as [n | b | t]; try reflexivity.
    apply indexOf_absent. now apply Habs.
  - apply (selectNewValue_defined options value delta Hne).
  - apply (selectNewValue_defined options value delta Hne).
Qed.

Lemma select_adjust_clamps_witness :
  exists options : list string,
    Setting.options (selectItem "format" "Pixel Format" "H264" ["YUYV"; "MJPG"])
    = Some options /\ options <> [] /\
    forall (value : Value) (delta : Z),
      let i := indexOfValue options value in
      (forall t, value = VStr t -> In t options -> 0 <= i /\ Js.at_ options i = Some t) /\
      ((forall t, value = VStr t -> ~ In t options) -> i = -1) /\
      selectNewIndex options value delta = Js.clamp 0 (Js.len options - 1) (i + delta) /\
      exists r, selectNewValue options value delta = Some r /\ In r options /\
                (i = -1 -> delta <= 1 -> Js.at_ options 0 = Some r).
Proof.
  refine (select_adjust_clamps (currentSettings Sim.atForeignFormat)
            (currentFormat Sim.atForeignFormat)
            (selectItem "format" "Pixel Format" "H264" ["YUYV"; "MJPG"]) _ _).
  - vm_compute. right. left. reflexivity.
  - reflexivity.
Defined.

(** C4 as stated fails: on a camera that reports the pixel format H264, which
    is not among the options, the current index is [-1], not [0]; Right
    (delta [+1]) hands on the first option, YUYV, and not the second. *)
Lemma absent_value_steps_to_first_option :
  Js.at_ (visibleSettings Sim.atForeignFormat) (selectedIndex Sim.atForeignFormat)
  = Some (selectItem "format" "Pixel Format" "H264" ["YUYV"; "MJPG"]) /\
  ~ In "H264" ["YUYV"; "MJPG"] /\
  indexOfValue ["YUYV"; "MJPG"] (VStr "H264") = -1 /\
  selectNewValue ["YUYV"; "MJPG"] (VStr "H264") 1 = Some "YUYV" /\
  selectNewValue ["YUYV"; "MJPG"] (VStr "H264") 1 <> Js.at_ ["YUYV"; "MJPG"] 1 /\
  nth_error (history (webcam (useInput "" Sim.right Sim.atForeignFormat))) 14
  = Some (SetFmtVideo (Some 1280) (Some 720) "YUYV").
Proof.
  split; [vm_compute; reflexivity|].
  split; [intros [H | [H | []]]; discriminate H|].
  split; [reflexivity|]. split; [reflexivity|].
  split; [vm_compute; discriminate | vm_compute; reflexivity].
Qed.

End Values.

(* ================================================================== *)
(** ** Dialogs and notifications *)

Section Dialogs.

Import Webcam Ui Props.

(** C1.  On a camera another program is streaming from, Reset-to-Defaults
    confirmed with [y] collects two error messages, yet the dialog afterwards
    is closed and the notification is still the "Resetting.." one: the Error
    dialog that [resetToDefaults] sets is replaced by its last statement,
    [setDialog({ type: 'none' })], and this happens in every state.  The
    Optimize operation on the same camera does end on its Error dialog. *)
Theorem reset_error_dialog_is_overwritten :
  errors (fst (Webcam.resetToDefaults (webcam Sim.confirmingBusy)))
  = [ "Cannot reset video format: camera is in use by another application";
      "Cannot reset frame rate: camera is in use by another application" ] /\
  dialog (useInput "y" Sim.noKey Sim.confirmingBusy) = closed /\
  notification (useInput "y" Sim.noKey Sim.confirmingBusy)
  = note "Resetting to factory defaults..." Notification.info true /\
  (forall st : State, dialog (Ui.resetToDefaults st) = closed) /\
  dialog (useInput "o" Sim.noKey (mount (Sim.plugged true "MJPG")))
  = errorDialog "Optimal Settings - Partial Success"
      [ "Cannot change video format: camera is in use by another application";
        "Cannot change frame rate: camera is in use by another application" ].
Proof.
  split; [vm_compute; reflexivity|].
  split; [vm_compute; reflexivity|].
  split; [vm_compute; reflexivity|].
  split; [intro st; reflexivity | vm_compute; reflexivity].
Qed.

Lemma leb_false (a b : Z) : b < a -> (a <=? b) = false.
Proof. intro H. destruct (Z.leb_spec a b); [lia | reflexivity]. Qed.

Lemma leb_true (a b : Z) : a <= b -> (a <=? b) = true.
Proof. intro H. destruct (Z.leb_spec a b); [reflexivity | lia]. Qed.

(** C3, amended.  Starting with no timer pending, two notifications 500 ms
    apart leave both expiry timers pending: the second call cancels nothing.
    The second notification is the one shown, it is visible at the 1000 ms
    mark and for the first 1500 ms after it was fired; from then on, when the
    timer of the first notification has run, it is hidden, so it is hidden as
    well 2500 ms after it was fired. *)
Theorem second_notification_expires_with_first
    (st : State) (m1 m2 : string) (t1 t2 : Notification.Type_) :
  timers st = [] ->
  let s := twoNotifications m1 t1 m2 t2 st in
  timers s = [clock st + 2000; clock st + 2500] /\
  notification (elapse 500 s) = note m2 t2 true /\
  (forall dt, 0 <= dt < 1500 -> notification (elapse dt s) = note m2 t2 true) /\
  (forall dt, 1500 <= dt -> notification (elapse dt s) = note m2 t2 false) /\
  notification (elapse 2500 s) = note m2 t2 false.
Proof.
  intros Ht s.
  assert (Hs : timers s = [clock st + 2000; clock st + 2500] /\
               clock s = clock st + 500 /\ notification s = note m2 t2 true).
  { unfold s, twoNotifications, showNotification, elapse.
    cbn [timers clock notification withTimers setNotification]. rewrite Ht.
    cbn [app filter]. rewrite (leb_false (clock st + 2000)) by lia.
    cbn [negb fold_left app timers clock notification withTimers].
    repeat split. f_equal. f_equal. lia. }
  destruct Hs as [Hts [Hc Hn]].
  assert (Hearly : forall dt, 0 <= dt < 1500 -> notification (elapse dt s) = note m2 t2 true).
  { intros dt Hdt. unfold elapse. rewrite Hts, Hc. cbn [filter].
    rewrite (leb_false (clock st + 2000)), (leb_false (clock st + 2500)) by lia.
    cbn [fold_left notification withTimers]. exact Hn. }
  assert (Hlate : forall dt, 1500 <= dt -> notification (elapse dt s) = note m2 t2 false).
  { intros dt Hdt. unfold elapse. rewrite Hts, Hc. cbn [filter].
    rewrite (leb_true (clock st + 2000)) by lia.
    destruct (clock st + 2500 <=? clock st + 500 + dt);
      cbn [fold_left notification withTimers expire setNotification];
      rewrite Hn; reflexivity. }
  split; [exact Hts|]. split; [apply Hearly; lia|]. split; [exact Hearly|].
  split; [exact Hlate | apply Hlate; lia].
Qed.

Lemma second_notification_expires_with_first_witness :
  notification (elapse 2500 (twoNotifications "first" Notification.info
                               "second" Notification.success Sim.started))
  = note "second" Notification.success false.
Proof.
  pose proof (second_notification_expires_with_first Sim.started
                "first" "second" Notification.info Notification.success) as H.
  destruct H as [_ [_ [_ [_ H]]]].
  - vm_compute. reflexivity.
  - exact H.
Defined.

(** C3 as stated fails: after two notifications 500 ms apart the timer of the
    first one is still pending next to the timer of the second, and 1600 ms
    after the second was fired, well inside its 2000 ms, it is hidden. *)
Lemma first_timer_hides_second_notification :
  timers (twoNotifications "first" Notification.info "second" Notification.success
            Sim.started) = [2000; 2500] /\
  notification (elapse 1600 (twoNotifications "first" Notification.info
                               "second" Notification.success Sim.started))
  = note "second" Notification.success false.
Proof.
  split; vm_compute; reflexivity.
Qed.

End Dialogs.

(* ================================================================== *)
(** ** The input handler *)

Section Input.

Import Webcam Ui Props.

Lemma refreshSettings_webcam (st : State) :
  webcam (refreshSettings st)
  = snd (getDeviceStatus (snd (getCurrentVideoFormat (snd (getCurrentSettings (webcam st)))))).
Proof. reflexivity. Qed.







(** *** The cursor *)

Lemma map_key_filter (f : string -> bool) (l : list Setting.Item) :
  map Setting.key (filter (fun s => f (Setting.key s)) l) = filter f (map Setting.key l).
Proof.
  induction l as [|s l IH]; simpl; [reflexivity|].
  destruct (f (Setting.key s)); simpl; now rewrite IH.
Qed.

Lemma visible_keys (st : State) :
  map Setting.key (visibleSettings st) = visibleKeys (currentSettings st).
Proof.
  unfold visibleSettings, shouldShowSetting, visibleKeys.
  rewrite (map_key_filter (shouldShow (currentSettings st))). reflexivity.
Qed.

Lemma len_visible (st : State) :
  Js.len (visibleSettings st) = Js.len (visibleKeys (currentSettings st)).
Proof.
  unfold Js.len. now rewrite <- visible_keys, length_map.
Qed.

Lemma selectedKey_at (st : State) :
  selectedKey st = Js.at_ (visibleKeys (currentSettings st)) (selectedIndex st).
Proof.
  unfold selectedKey, Js.at_. rewrite <- visible_keys.
  destruct (selectedIndex st <? 0); [reflexivity|]. now rewrite nth_error_map.
Qed.

Ltac show_keys :=
  repeat match goal with
         | |- context [visibleKeys ?c] =>
             let v := eval vm_compute in (visibleKeys c) in
             change (visibleKeys c) with v
         | H : context [visibleKeys ?c] |- _ =>
             let v := eval vm_compute in (visibleKeys c) in
             change (visibleKeys c) with v in H
         end.

Ltac flag_contra H :=
  let X := fresh in
  assert (X := H ltac:(vm_compute; discriminate)); discriminate X.

(** The visible rows are twelve to fifteen. *)
Lemma visible_count (cs : WebcamSettings) : 12 <= Js.len (visibleKeys cs) <= 15.
Proof.
  destruct cs as [b c s sh g e f w plf ev fv wv].
  destruct e, f, w; show_keys; vm_compute; split; discriminate.
Qed.

(** A row stays inside the list when the only automatic mode that changes is
    the one whose toggle is on that row. *)
Lemma toggle_keeps_position (cs cs' : WebcamSettings) (i : Z) :
  0 <= i <= Js.len (visibleKeys cs) - 1 ->
  (Js.at_ (visibleKeys cs) i <> Some "autoExposure" -> autoExposure cs' = autoExposure cs) ->
  (Js.at_ (visibleKeys cs) i <> Some "autoFocus" -> autoFocus cs' = autoFocus cs) ->
  (Js.at_ (visibleKeys cs) i <> Some "autoWhiteBalance" ->
   autoWhiteBalance cs' = autoWhiteBalance cs) ->
  0 <= i <= Js.len (visibleKeys cs') - 1.
Proof.
  destruct cs as [b c s sh g e f w plf ev fv wv].
  destruct cs' as [b' c' s' sh' g' e' f' w' plf' ev' fv' wv'].
  cbn [autoExposure autoFocus autoWhiteBalance].
  intros Hi H1 H2 H3.
  destruct e, f, w, e', f', w'; show_keys; unfold Js.len in *;
    cbn [List.length] in *; try lia;
    (assert (Hcase : i = 0 \/ i = 1 \/ i = 2 \/ i = 3 \/ i = 4 \/ i = 5 \/ i = 6 \/ i = 7
                     \/ i = 8 \/ i = 9 \/ i = 10 \/ i = 11 \/ i = 12 \/ i = 13 \/ i = 14)
       by lia);
    repeat (destruct Hcase as [Hcase | Hcase]; [subst i; try lia;
            first [flag_contra H1 | flag_contra H2 | flag_contra H3]|]);
    subst i; try lia; first [flag_contra H1 | flag_contra H2 | flag_contra H3].
Qed.

Lemma useInput_index (st : State) (input : string) (key : Key) :
  selectedIndex (useInput input key st) = selectedIndex st \/
  (currentSettings (useInput input key st) = currentSettings st /\
   (selectedIndex (useInput input key st) = Z.max 0 (selectedIndex st - 1) \/
    selectedIndex (useInput input key st)
    = Z.min (Js.len (visibleSettings st) - 1) (selectedIndex st + 1))).
Proof.
  unfold useInput.
  destruct (negb (Dialog.isNone (dialog st))).
  { left. destruct (Dialog.isReset (dialog st)).
    - destruct ((input === "y") || (input === "Y"));
        [rewrite resetToDefaults_index; reflexivity|].
      destruct ((input === "n") || (input === "N") || escape key); reflexivity.
    - destruct (return_ key || escape key || (input === "q")); reflexivity. }
  destruct (upArrow key); [right; split; [reflexivity | left; reflexivity]|].
  destruct (downArrow key); [right; split; [reflexivity | right; reflexivity]|].
  left.
  repeat match goal with
         | |- context [if ?c then _ else _] => destruct c
         end;
    first [ apply adjustCurrentSetting_index
          | apply applyOptimalSettings_index
          | reflexivity ].
Qed.

(** C2, amended.  If the cursor is inside the visible list and handling an
    input leaves the three automatic modes as they were, except possibly the
    one whose toggle is under the cursor, then the cursor is inside the
    visible list afterwards.  This covers the navigation keys, the dialog
    keys, and an adjustment or toggle of the selected row on a device that
    changes nothing else. *)
Theorem selection_index_stays_in_range (st : State) (input : string) (key : Key) :
  indexInRange st ->
  onlySelectedFlagMayChange st (useInput input key st) ->
  indexInRange (useInput input key st).
Proof.
  intros Hin [H1 [H2 H3]] _.
  rewrite selectedKey_at in H1, H2, H3.
  pose proof (visible_count (currentSettings st)) as Hc.
  pose proof (visible_count (currentSettings (useInput input key st))) as Hc'.
  unfold indexInRange in Hin. rewrite len_visible in Hin. rewrite len_visible.
  assert (Hi : 0 <= selectedIndex st <= Js.len (visibleKeys (currentSettings st)) - 1)
    by (apply Hin; lia).
  destruct (useInput_index st input key) as [E | [Ecs [E | E]]].
  - rewrite E. now apply (toggle_keeps_position (currentSettings st)).
  - rewrite E, Ecs. lia.
  - rewrite E, Ecs, len_visible. lia.
Qed.

Lemma selection_index_stays_in_range_witness :
  indexInRange (useInput "" Sim.enter Sim.atAutoExposure).
Proof.
  refine (selection_index_stays_in_range Sim.atAutoExposure "" Sim.enter _ _).
  - intros _. vm_compute. split; discriminate.
  - repeat split; intro H; vm_compute; try reflexivity.
    exfalso. apply H. vm_compute. reflexivity.
Defined.

(** C2 as stated fails: with the cursor on the last of fifteen rows,
    Optimize switches the three automatic modes on; twelve rows remain and
    the cursor is still at index 14. *)
Lemma optimize_leaves_cursor_past_the_end :
  indexInRange Sim.atLastRow /\
  selectedIndex (useInput "o" Sim.noKey Sim.atLastRow) = 14 /\
  Js.len (visibleSettings (useInput "o" Sim.noKey Sim.atLastRow)) = 12 /\
  ~ indexInRange (useInput "o" Sim.noKey Sim.atLastRow).
Proof.
  split; [intros _; vm_compute; split; discriminate|].
  split; [vm_compute; reflexivity|]. split; [vm_compute; reflexivity|].
  intro H. assert (X : 0 < 12) by lia. revert H X.
  unfold indexInRange.
  replace (Js.len (visibleSettings (useInput "o" Sim.noKey Sim.atLastRow))) with 12
    by (vm_compute; reflexivity).
  replace (selectedIndex (useInput "o" Sim.noKey Sim.atLastRow)) with 14
    by (vm_compute; reflexivity).
  lia.
Qed.

End Input.

(* ================================================================== *)
(** ** Further properties: texts, read-back, commands and feedback *)

Section Decimal.

Import Webcam Ui Props.

Lemma read_digits_stop (v : option Z) (rest : string) :
  endsNumber rest -> Js.read_digits Js.dec_val 10 v rest = v.
Proof.
  destruct rest as [|c r]; simpl; [reflexivity|]. intros [H _]. now rewrite H.
Qed.

Lemma read_digits_acc (d : Decimal.uint) (p : positive) (rest : string) :
  Js.read_digits Js.dec_val 10 (Some (Z.pos p)) (NilEmpty.string_of_uint d ++ rest)
  = Js.read_digits Js.dec_val 10 (Some (Z.pos (Pos.of_uint_acc d p))) rest.
Proof.
  revert p. induction d; intro p; cbn [NilEmpty.string_of_uint append Pos.of_uint_acc];
    [reflexivity | ..];
    cbn [Js.read_digits];
    match goal with
    | |- context [Js.dec_val ?c] =>
        let v := eval vm_compute in (Js.dec_val c) in change (Js.dec_val c) with v
    end; cbv iota; rewrite <- IHd; f_equal; f_equal; lia.
Qed.

Lemma read_digits_uint (d : Decimal.uint) (rest : string) :
  Js.read_digits Js.dec_val 10 (Some 0) (NilEmpty.string_of_uint d ++ rest)
  = Js.read_digits Js.dec_val 10 (Some (Z.of_N (Pos.of_uint d))) rest.
Proof.
  induction d; cbn [NilEmpty.string_of_uint append Pos.of_uint];
    [reflexivity | ..];
    cbn [Js.read_digits];
    match goal with
    | |- context [Js.dec_val ?c] =>
        let v := eval vm_compute in (Js.dec_val c) in change (Js.dec_val c) with v
    end; cbv iota;
    first [ exact IHd | apply (read_digits_acc d) ].
Qed.







Lemma read_digits_start (d : Decimal.uint) (rest : string) :
  d <> Decimal.Nil ->
  Js.read_digits Js.dec_val 10 None (NilEmpty.string_of_uint d ++ rest)
  = Js.read_digits Js.dec_val 10 (Some 0) (NilEmpty.string_of_uint d ++ rest).
Proof.
  destruct d; [contradiction | ..]; reflexivity.
Qed.

Lemma toStr_nonneg (p : positive) :
  Js.toStr (Z.pos p) = NilEmpty.string_of_uint (Pos.to_uint p).
Proof.
  unfold Js.toStr, Z.to_int, NilZero.string_of_int, NilZero.string_of_uint.
  pose proof (DecimalPos.Unsigned.to_uint_nonnil p).
  destruct (Pos.to_uint p); [contradiction | ..]; reflexivity.
Qed.

Lemma toStr_neg (p : positive) :
  Js.toStr (Z.neg p) = String "-" (NilEmpty.string_of_uint (Pos.to_uint p)).
Proof.
  unfold Js.toStr, Z.to_int, NilZero.string_of_int, NilZero.string_of_uint.
  pose proof (DecimalPos.Unsigned.to_uint_nonnil p).
  destruct (Pos.to_uint p); [contradiction | ..]; reflexivity.
Qed.

Lemma read_positive (p : positive) (rest : string) :
  endsNumber rest ->
  Js.read_digits Js.dec_val 10 None (NilEmpty.string_of_uint (Pos.to_uint p) ++ rest)
  = Some (Z.pos p).
Proof.
  intro Hrest. pose proof (DecimalPos.Unsigned.to_uint_nonnil p) as Hn.
  rewrite read_digits_start, read_digits_uint, DecimalPos.Unsigned.of_to by exact Hn.
  now rewrite read_digits_stop.
Qed.


End Decimal.

Section Texts.

Import Webcam Ui Props.

Lemma append_empty_r (s : string) : (s ++ "")%string = s.
Proof. induction s; simpl; congruence. Qed.


Lemma split_nonnil (sep : ascii) (s : string) : Js.split sep s <> [].
Proof.
  destruct s as [|c s]; simpl; [discriminate|].
  destruct (Ascii.eqb c sep); [discriminate|].
  destruct (Js.split sep s); discriminate.
Qed.

Lemma split_single_cons (sep c : ascii) (s : string) :
  Js.split sep (String c s) = [String c s] -> c <> sep /\ Js.split sep s = [s].
Proof.
  simpl. destruct (Ascii.eqb_spec c sep) as [E | E].
  - intro H. discriminate H.
  - destruct (Js.split sep s) as [|p ps] eqn:Hs; intro H.
    + exfalso. exact (split_nonnil sep s Hs).
    + injection H as H1 H2. subst. auto.
Qed.

(** A text without the separator, followed by the separator. *)
Lemma split_at_separator (sep : ascii) (a b : string) :
  Js.split sep a = [a] ->
  Js.split sep (a ++ String sep b) = a :: Js.split sep b.
Proof.
  induction a as [|c a IH]; intro H.
  - simpl. now rewrite Ascii.eqb_refl.
  - destruct (split_single_cons sep c a H) as [Hc Ha].
    cbn [append Js.split]. destruct (Ascii.eqb_spec c sep); [contradiction|].
    now rewrite (IH Ha).
Qed.


Lemma split_digits (sep : ascii) (d : Decimal.uint) :
  Js.is_digit sep = false ->
  Js.split sep (NilEmpty.string_of_uint d) = [NilEmpty.string_of_uint d].
Proof.
  intro Hsep. induction d; cbn [NilEmpty.string_of_uint Js.split]; [reflexivity | ..];
    rewrite IHd;
    match goal with
    | |- context [Ascii.eqb ?c sep] =>
        destruct (Ascii.eqb_spec c sep) as [E | E];
        [subst sep; discriminate Hsep | reflexivity]
    end.
Qed.

Lemma split_toStr (sep : ascii) (n : Z) :
  Js.is_digit sep = false -> sep <> "-"%char -> Js.split sep (Js.toStr n) = [Js.toStr n].
Proof.
  intros Hsep Hm. destruct n as [|p|p].
  - change (Js.toStr 0) with "0". cbn [Js.split].
    destruct (Ascii.eqb_spec "0" sep) as [E | E]; [subst sep; discriminate Hsep | reflexivity].
  - rewrite toStr_nonneg. now apply split_digits.
  - rewrite toStr_neg. cbn [Js.split]. rewrite (split_digits sep _ Hsep).
    destruct (Ascii.eqb_spec "-" sep) as [E | E]; [congruence | reflexivity].
Qed.

Lemma all_digits_uint (d : Decimal.uint) : Js.all_digits (NilEmpty.string_of_uint d) = true.
Proof. induction d; cbn [NilEmpty.string_of_uint Js.all_digits]; auto. Qed.

(** [Number] reads back the integer that a template literal printed. *)
Lemma Number_toStr (n : Z) : Js.Number (Js.toStr n) = Some n.
Proof.
  destruct n as [|p|p]; [reflexivity | |].
  - rewrite toStr_nonneg.
    pose proof (DecimalPos.Unsigned.to_uint_nonnil p) as Hn.
    pose proof (read_positive p "" I) as Hr. rewrite append_empty_r in Hr.
    pose proof (all_digits_uint (Pos.to_uint p)) as Ha.
    destruct (Pos.to_uint p) as [|l|l|l|l|l|l|l|l|l|l]; [contradiction | ..];
      unfold Js.Number; cbn [NilEmpty.string_of_uint Js.read_sign] in *;
      rewrite Ha, Hr; reflexivity.
  - rewrite toStr_neg.
    pose proof (DecimalPos.Unsigned.to_uint_nonnil p) as Hn.
    pose proof (read_positive p "" I) as Hr. rewrite append_empty_r in Hr.
    pose proof (all_digits_uint (Pos.to_uint p)) as Ha.
    unfold Js.Number. cbn [Js.read_sign].
    destruct (Pos.to_uint p) as [|l|l|l|l|l|l|l|l|l|l]; [contradiction | ..];
      cbn [NilEmpty.string_of_uint] in *; rewrite Ha, Hr; reflexivity.
Qed.

(** The resolution text decodes to the two numbers it was made of. *)
Lemma dimension_round_trip (w h : Z) :
  dimension (Js.toStr w ++ "x" ++ Js.toStr h) 0 = Some w /\
  dimension (Js.toStr w ++ "x" ++ Js.toStr h) 1 = Some h.
Proof.
  unfold dimension. cbn [append].
  rewrite split_at_separator by (apply split_toStr; [reflexivity | discriminate]).
  rewrite split_toStr by (reflexivity || discriminate).
  cbn [map nth_error]. now rewrite !Number_toStr.
Qed.



End Texts.

Section Reading.

Import Webcam Ui Props.

Lemma orNum_nonzero (a b : Z) : b <> 0 -> Js.orNum a b <> 0.
Proof. unfold Js.orNum. destruct (Z.eqb_spec a 0); auto. Qed.

Lemma getCurrentSettings_history (w : World) :
  history (snd (getCurrentSettings w)) = (history w ++ settingsQueries)%list /\
  respond (snd (getCurrentSettings w)) = respond w.
Proof.
  unfold getCurrentSettings, getControl, bind, ret, execSync.
  cbn [fst snd history respond]. split; [|reflexivity].
  unfold settingsQueries. repeat rewrite <- app_assoc. reflexivity.
Qed.

Lemma plf_display_disabled (f : Z) : getPowerLineDisplay f = "Disabled" -> f = 0.
Proof.
  unfold getPowerLineDisplay. destruct (Z.eqb_spec f 0); [auto|].
  destruct (f =? 1); [discriminate|]. destruct (f =? 2); discriminate.
Qed.

(** X1.  Whatever the camera answers, the settings read back never hold 0
    for brightness, contrast, saturation, sharpness, power-line frequency,
    exposure or white-balance temperature: a reading of 0 (as well as a
    failed or unreadable one) is replaced by the default.  In particular the
    power-line row of a refreshed catalog never shows "Disabled". *)
Theorem readback_zero_becomes_default (w : World) :
  let cs := fst (getCurrentSettings w) in
  brightness cs <> 0 /\ contrast cs <> 0 /\ saturation cs <> 0 /\ sharpness cs <> 0 /\
  powerLineFrequency cs <> 0 /\ exposureValue cs <> 0 /\ whiteBalanceValue cs <> 0 /\
  forall (cf : VideoFormat) (s : Setting.Item),
    In s (catalog cs cf) -> Setting.key s = "powerLineFrequency" ->
    Setting.value s <> VStr "Disabled".
Proof.
  cbv zeta.
  assert (H : brightness (fst (getCurrentSettings w)) <> 0 /\
              contrast (fst (getCurrentSettings w)) <> 0 /\
              saturation (fst (getCurrentSettings w)) <> 0 /\
              sharpness (fst (getCurrentSettings w)) <> 0 /\
              powerLineFrequency (fst (getCurrentSettings w)) <> 0 /\
              exposureValue (fst (getCurrentSettings w)) <> 0 /\
              whiteBalanceValue (fst (getCurrentSettings w)) <> 0).
  { unfold getCurrentSettings, getControl, bind, ret, execSync.
    cbn [fst snd history respond brightness contrast saturation sharpness
         powerLineFrequency exposureValue whiteBalanceValue].
    repeat split; apply orNum_nonzero; discriminate. }
  destruct H as [H1 [H2 [H3 [H4 [H5 [H6 H7]]]]]]. repeat split; auto.
  intros cf s Hin Hkey Hval. unfold catalog in Hin. simpl In in Hin.
  repeat (destruct Hin as [Hin | Hin]; [subst s; try discriminate Hkey|]);
    [|contradiction].
  cbn [Setting.value selectItem] in Hval. injection Hval as Hval.
  apply H5. now apply plf_display_disabled.
Qed.

Lemma readback_zero_becomes_default_witness :
  brightness (fst (getCurrentSettings (Sim.plugged false "MJPG"))) <> 0 /\
  powerLineFrequency (fst (getCurrentSettings (Sim.plugged false "MJPG"))) <> 0.
Proof.
  pose proof (readback_zero_becomes_default (Sim.plugged false "MJPG")) as H.
  cbv zeta in H. destruct H as [Hb [_ [_ [_ [Hp _]]]]]. exact (conj Hb Hp).
Defined.



(** X14.  [getCurrentVideoFormat] gives the default format 640x480 YUYV at
    30 whenever one of its two commands fails: when the format query fails
    the frame-rate query is not run at all, and when only the frame-rate
    query fails the width, height and pixel format that were read are
    dropped as well. *)
Theorem video_format_falls_back (w : World) :
  (forall msg : string,
     respond w (history w) GetFmtVideo = Thrown msg ->
     fst (getCurrentVideoFormat w) = defaultFormat /\
     history (snd (getCurrentVideoFormat w)) = (history w ++ [GetFmtVideo])%list) /\
  (forall out msg : string,
     respond w (history w) GetFmtVideo = Done out ->
     respond w (history w ++ [GetFmtVideo])%list GetParm = Thrown msg ->
     fst (getCurrentVideoFormat w) = defaultFormat /\
     history (snd (getCurrentVideoFormat w)) = (history w ++ [GetFmtVideo; GetParm])%list).
Proof.
  unfold getCurrentVideoFormat, bind, ret, execSync. split.
  - intros msg Hr. rewrite Hr. split; reflexivity.
  - intros out msg Hr Hp. rewrite Hr. cbn [history respond]. rewrite Hp.
    cbn [fst snd history]. split; [reflexivity | now rewrite <- app_assoc].
Qed.

Lemma video_format_falls_back_witness :
  fst (getCurrentVideoFormat (Sim.plugged true "MJPG")) = defaultFormat /\
  history (snd (getCurrentVideoFormat (Sim.plugged true "MJPG")))
  = (history (Sim.plugged true "MJPG") ++ [GetFmtVideo])%list.
Proof.
  refine (proj1 (video_format_falls_back (Sim.plugged true "MJPG")) Sim.busyText _).
  reflexivity.
Defined.

(** X13.  The two busy probes agree: [checkDeviceBusy] answers what
    [getDeviceStatus] reports as [inUse], and both run the same single
    command.  A status never says in use without saying available, and it
    carries an error text exactly when it says not available. *)
Theorem busy_probes_agree (w : World) :
  fst (checkDeviceBusy w) = inUse (fst (getDeviceStatus w)) /\
  snd (checkDeviceBusy w) = snd (getDeviceStatus w) /\
  history (snd (getDeviceStatus w)) = (history w ++ [GetFmtVideo])%list /\
  (inUse (fst (getDeviceStatus w)) = true -> available (fst (getDeviceStatus w)) = true) /\
  (available (fst (getDeviceStatus w)) = false <-> statusError (fst (getDeviceStatus w)) <> None).
Proof.
  unfold checkDeviceBusy, getDeviceStatus, bind, ret, execSync. cbn [fst snd history].
  destruct (respond w (history w) GetFmtVideo) as [out | msg].
  - repeat split; try reflexivity; try discriminate. intro H. now contradiction H.
  - destruct (Js.includes "Device or resource busy" msg).
    + repeat split; try reflexivity; try discriminate. intro H. now contradiction H.
    + destruct (Js.includes "No such file or directory" msg);
        repeat split; try reflexivity; try discriminate.
Qed.

Lemma busy_probes_agree_witness :
  available (fst (getDeviceStatus (Sim.plugged true "MJPG"))) = true /\
  fst (checkDeviceBusy (Sim.plugged true "MJPG")) = true.
Proof.
  pose proof (busy_probes_agree (Sim.plugged true "MJPG")) as H.
  destruct H as [Ha [_ [_ [Hb _]]]]. split.
  - apply Hb. vm_compute. reflexivity.
  - rewrite Ha. vm_compute. reflexivity.
Defined.

End Reading.

Section Applying.

Import Webcam Ui Props.

Lemma getCurrentVideoFormat_history (w : World) :
  respond (snd (getCurrentVideoFormat w)) = respond w /\
  (history (snd (getCurrentVideoFormat w)) = (history w ++ [GetFmtVideo; GetParm])%list \/
   history (snd (getCurrentVideoFormat w)) = (history w ++ [GetFmtVideo])%list).
Proof.
  unfold getCurrentVideoFormat, bind, ret, execSync.
  destruct (respond w (history w) GetFmtVideo); cbn [fst snd history respond].
  - destruct (respond w (history w ++ [GetFmtVideo])%list GetParm);
      cbn [fst snd history respond]; (split; [reflexivity|]); left;
      now rewrite <- app_assoc.
  - split; [reflexivity | right; reflexivity].
Qed.

(** X8.  A refresh only asks: the commands it runs are the twelve control
    queries, the format query, the frame-rate query (left out when the
    format query failed) and the status query, in that order and never a
    set command.  It touches the settings, the format and the busy flag and
    nothing else. *)
Theorem refresh_only_queries (st : State) :
  (exists more,
     history (webcam (refreshSettings st))
     = (history (webcam st) ++ settingsQueries ++ more)%list /\
     (more = [GetFmtVideo; GetParm; GetFmtVideo] \/ more = [GetFmtVideo; GetFmtVideo]) /\
     forallb isQuery (settingsQueries ++ more) = true) /\
  respond (webcam (refreshSettings st)) = respond (webcam st) /\
  selectedIndex (refreshSettings st) = selectedIndex st /\
  dialog (refreshSettings st) = dialog st /\
  notification (refreshSettings st) = notification st /\
  timers (refreshSettings st) = timers st /\
  exited (refreshSettings st) = exited st.
Proof.
  split; [|repeat split].
  - rewrite refreshSettings_webcam.
    destruct (getCurrentSettings_history (webcam st)) as [Hs Rs].
    destruct (getCurrentVideoFormat_history (snd (getCurrentSettings (webcam st))))
      as [Rf Hf].
    unfold getDeviceStatus at 1, bind, ret, execSync. cbn [fst snd history].
    destruct Hf as [Hf | Hf]; rewrite Hf, Hs.
    + exists [GetFmtVideo; GetParm; GetFmtVideo]. split; [|split; [left|]; reflexivity].
      now rewrite <- !app_assoc.
    + exists [GetFmtVideo; GetFmtVideo]. split; [|split; [right|]; reflexivity].
      now rewrite <- !app_assoc.
  - rewrite refreshSettings_webcam.
    destruct (getCurrentSettings_history (webcam st)) as [_ Rs].
    destruct (getCurrentVideoFormat_history (snd (getCurrentSettings (webcam st))))
      as [Rf _].
    unfold getDeviceStatus, bind, ret, execSync. cbn [fst snd respond]. congruence.
Qed.

Lemma refresh_after (st : State) (old : list Cmd) (cmds : list Cmd) :
  history (webcam st) = (old ++ cmds)%list ->
  exists more,
    history (webcam (refreshSettings st)) = (old ++ cmds ++ more)%list /\
    forallb isQuery more = true.
Proof.
  intro H. destruct (refresh_only_queries st) as [[more [Hm [_ Hq]]] _].
  exists (settingsQueries ++ more)%list. split; [|exact Hq].
  now rewrite Hm, H, <- !app_assoc.
Qed.

Ltac webcam_norm :=
  rewrite ?refreshSettings_webcam;
  cbn [webcam withWorld setDialog showNotification withTimers setNotification
       setCurrentSettings setCurrentFormat setDeviceBusy setSelectedIndex].

Lemma findSetting_resolution (st : State) :
  valueOr (findSetting st "resolution") "1920x1080"
  = (Js.toStr (width (currentFormat st)) ++ "x" ++ Js.toStr (height (currentFormat st)))%string.
Proof.
  unfold findSetting, settings, catalog. cbn [find Setting.key selectItem String.eqb Ascii.eqb Bool.eqb].
  unfold valueOr. cbn [Setting.value truthy asString].
  destruct (Js.toStr (width (currentFormat st))); reflexivity.
Qed.

Lemma findSetting_format (st : State) :
  valueOr (findSetting st "format") "MJPG"
  = if Js.nonempty (pixelFormat (currentFormat st)) then pixelFormat (currentFormat st)
    else "MJPG".
Proof.
  unfold findSetting, settings, catalog.
  cbn [find Setting.key selectItem String.eqb Ascii.eqb Bool.eqb].
  reflexivity.
Qed.

(** X3.  Changing one half of the video format sends the other half as it
    is shown: a pixel-format change sends the current width and height (the
    resolution text is split and parsed back into the two numbers it was
    printed from), and a resolution change sends the current pixel format,
    or MJPG when that is empty.  Queries of the refresh follow. *)
Theorem format_change_keeps_other_half (st : State) :
  (forall value : string,
     exists more,
       history (webcam (applySelectSetting "format" value st))
       = (history (webcam st)
          ++ [SetFmtVideo (Some (width (currentFormat st)))
                (Some (height (currentFormat st))) value] ++ more)%list /\
       forallb isQuery more = true) /\
  (forall w h : Z,
     exists more,
       history (webcam (applySelectSetting "resolution"
                          (Js.toStr w ++ "x" ++ Js.toStr h) st))
       = (history (webcam st)
          ++ [SetFmtVideo (Some w) (Some h)
                (if Js.nonempty (pixelFormat (currentFormat st))
                 then pixelFormat (currentFormat st) else "MJPG")] ++ more)%list /\
       forallb isQuery more = true).
Proof.
  split.
  - intro value. unfold applySelectSetting. cbn [String.eqb Ascii.eqb Bool.eqb].
    rewrite findSetting_resolution.
    destruct (dimension_round_trip (width (currentFormat st)) (height (currentFormat st)))
      as [-> ->].
    unfold call. cbn [fst snd].
    match goal with |- context [if ?c then _ else _] => destruct c end;
      apply refresh_after; reflexivity.
  - intros w h. unfold applySelectSetting. cbn [String.eqb Ascii.eqb Bool.eqb].
    rewrite findSetting_format.
    destruct (dimension_round_trip w h) as [-> ->].
    unfold call. cbn [fst snd].
    match goal with |- context [if ?c then _ else _] => destruct c end;
      apply refresh_after; reflexivity.
Qed.



(** X5.  The power-line labels decode to the numbers they stand for:
    applying the label shown for frequency 0, 1 or 2 writes that frequency,
    and applying any other text (such as the label "Unknown") writes 0. *)
Theorem power_line_label_decodes (st : State) :
  (forall f : Z, 0 <= f <= 2 ->
     exists more,
       history (webcam (applySelectSetting "powerLineFrequency" (getPowerLineDisplay f) st))
       = (history (webcam st) ++ [SetCtrl "power_line_frequency" f] ++ more)%list /\
       forallb isQuery more = true) /\
  (forall value : string, value <> "50Hz" -> value <> "60Hz" ->
     exists more,
       history (webcam (applySelectSetting "powerLineFrequency" value st))
       = (history (webcam st) ++ [SetCtrl "power_line_frequency" 0] ++ more)%list /\
       forallb isQuery more = true).
Proof.
  split.
  - intros f Hf. assert (Hc : f = 0 \/ f = 1 \/ f = 2) by lia.
    destruct Hc as [-> | [-> | ->]]; apply refresh_after; reflexivity.
  - intros value H5 H6. unfold applySelectSetting. cbn [String.eqb Ascii.eqb Bool.eqb].
    rewrite (proj2 (String.eqb_neq value "50Hz") H5), (proj2 (String.eqb_neq value "60Hz") H6).
    apply refresh_after. reflexivity.
Qed.

Lemma power_line_label_decodes_witness :
  exists more,
    history (webcam (applySelectSetting "powerLineFrequency" (getPowerLineDisplay 1) Sim.started))
    = (history (webcam Sim.started) ++ [SetCtrl "power_line_frequency" 1] ++ more)%list /\
    forallb isQuery more = true.
Proof.
  refine (proj1 (power_line_label_decodes Sim.started) 1 _). lia.
Defined.

Lemma clamp_id (lo hi x : Z) : lo <= x <= hi -> Js.clamp lo hi x = x.
Proof. unfold Js.clamp. lia. Qed.

Lemma rangeNewValue_bounds (s : Setting.Item) (mn mx sp delta : Z) :
  Setting.min s = Some mn -> Setting.max s = Some mx -> Setting.step s = Some sp ->
  mx <> 0 -> mn <= mx -> mn <= rangeNewValue s delta <= mx.
Proof.
  intros Hmn Hmx Hsp Nmx Hle. unfold rangeNewValue. rewrite Hmn, Hmx, Hsp.
  unfold Js.orField, Js.orNaN. rewrite (orNum_same mx 255), (orNum_same mn 0); [lia | | auto].
  destruct (Z.eq_dec mn 0); auto.
Qed.

Lemma run_setControl_history (st : State) (control : string) (value : Z) :
  history (webcam (run (setControl control value) st))
  = (history (webcam st) ++ [SetCtrl control value])%list.
Proof. reflexivity. Qed.

Lemma adjust_range_item (st : State) (key label control : string)
    (value mn mx sp delta : Z) (setter : Z -> M bool) :
  mx <> 0 -> mn <= mx ->
  (forall v, setter v = setControl control (Js.clamp mn mx v)) ->
  (forall v, applySetting key (VNum v) st = refreshSettings (run (setter v) st)) ->
  Js.mem ["resolution"; "format"; "framerate"] key = false ->
  isManualControlDisabled st key = false ->
  exists more,
    history (webcam (adjustSetting (rangeItem key label value mn mx sp) delta st))
    = (history (webcam st)
       ++ [SetCtrl control (rangeNewValue (rangeItem key label value mn mx sp) delta)]
       ++ more)%list /\
    forallb isQuery more = true.
Proof.
  intros Nmx Hle Hset Happ Hex Hlock.
  pose proof (rangeNewValue_bounds (rangeItem key label value mn mx sp) mn mx sp delta
                eq_refl eq_refl eq_refl Nmx Hle) as Hb.
  unfold adjustSetting. cbn [Setting.key Setting.type rangeItem].
  rewrite Hex, andb_false_r, Hlock.
  change ({| Setting.key := key; Setting.label := label; Setting.type := Setting.range;
             Setting.value := VNum value; Setting.options := None;
             Setting.min := Some mn; Setting.max := Some mx; Setting.step := Some sp |})
    with (rangeItem key label value mn mx sp) in *.
  rewrite Happ, Hset. apply refresh_after.
  rewrite run_setControl_history, (clamp_id _ _ _ Hb). reflexivity.
Qed.

(** X6.  For every range row of the catalog that is not locked by its
    automatic mode, an adjustment writes exactly the value computed by the
    interface to the control of that row: the bounds of the catalog are
    those of the controller's setter, so its own clamp changes nothing.
    Only queries follow. *)
Theorem range_adjust_writes_new_value (st : State) (s : Setting.Item) (delta : Z) :
  In s (settings st) -> Setting.type s = Setting.range ->
  isManualControlDisabled st (Setting.key s) = false ->
  exists control more,
    In (Setting.key s, control) rangeControls /\
    history (webcam (adjustSetting s delta st))
    = (history (webcam st) ++ [SetCtrl control (rangeNewValue s delta)] ++ more)%list /\
    forallb isQuery more = true.
Proof.
  intros Hin Hty Hlock. unfold settings, catalog in Hin. simpl In in Hin.
  repeat (destruct Hin as [Hin | Hin]; [subst s; try discriminate Hty|]);
    [ .. | contradiction]; cbn [Setting.key rangeItem] in Hlock |- *.
  - destruct (adjust_range_item st "brightness" "Brightness" "brightness"
                (brightness (currentSettings st)) 0 255 1 delta setBrightness)
      as [more H]; try reflexivity; try lia; auto.
    exists "brightness", more. split; [simpl; auto 10 | exact H].
  - destruct (adjust_range_item st "contrast" "Contrast" "contrast"
                (contrast (currentSettings st)) 0 255 1 delta setContrast)
      as [more H]; try reflexivity; try lia; auto.
    exists "contrast", more. split; [simpl; auto 10 | exact H].
  - destruct (adjust_range_item st "saturation" "Saturation" "saturation"
                (saturation (currentSettings st)) 0 255 1 delta setSaturation)
      as [more H]; try reflexivity; try lia; auto.
    exists "saturation", more. split; [simpl; auto 10 | exact H].
  - destruct (adjust_range_item st "sharpness" "Sharpness" "sharpness"
                (sharpness (currentSettings st)) 0 255 1 delta setSharpness)
      as [more H]; try reflexivity; try lia; auto.
    exists "sharpness", more. split; [simpl; auto 10 | exact H].
  - destruct (adjust_range_item st "gain" "Gain/ISO" "gain"
                (gain (currentSettings st)) 0 255 1 delta setGain)
      as [more H]; try reflexivity; try lia; auto.
    exists "gain", more. split; [simpl; auto 10 | exact H].
  - destruct (adjust_range_item st "exposureValue" "  └─ Exposure Value"
                "exposure_time_absolute"
                (exposureValue (currentSettings st)) 3 2047 1 delta setExposureValue)
      as [more H]; try reflexivity; try lia; auto.
    exists "exposure_time_absolute", more. split; [simpl; auto 10 | exact H].
  - destruct (adjust_range_item st "focusValue" "  └─ Focus Value" "focus_absolute"
                (focusValue (currentSettings st)) 0 250 5 delta setFocusValue)
      as [more H]; try reflexivity; try lia; auto.
    exists "focus_absolute", more. split; [simpl; auto 10 | exact H].
  - destruct (adjust_range_item st "whiteBalanceValue" "  └─ White Balance Temp"
                "white_balance_temperature"
                (whiteBalanceValue (currentSettings st)) 2000 6500 10 delta
                setWhiteBalanceValue)
      as [more H]; try reflexivity; try lia; auto.
    exists "white_balance_temperature", more. split; [simpl; auto 10 | exact H].
Qed.

Lemma range_adjust_writes_new_value_witness :
  exists control more,
    In ("brightness", control) rangeControls /\
    history (webcam (adjustSetting (rangeItem "brightness" "Brightness" 128 0 255 1) 10
                       Sim.started))
    = (history (webcam Sim.started)
       ++ [SetCtrl control (rangeNewValue (rangeItem "brightness" "Brightness" 128 0 255 1) 10)]
       ++ more)%list /\
    forallb isQuery more = true.
Proof.
  refine (range_adjust_writes_new_value Sim.started
            (rangeItem "brightness" "Brightness" 128 0 255 1) 10 _ _ _).
  - vm_compute. do 3 right. left. reflexivity.
  - reflexivity.
  - reflexivity.
Defined.

End Applying.

Section Feedback.

Import Webcam Ui Props.

Lemma ui_applyOptimalSettings_cases (st : State) :
  let r := fst (Webcam.applyOptimalSettings (webcam st)) in
  ok r = noErrors (errors r).
Proof.
  cbv zeta. unfold Webcam.applyOptimalSettings, setVideoFormat, setFrameRate, setAutoExposure,
    setAutoFocus, setAutoWhiteBalance, setPowerLineFrequency, setSaturation, setSharpness,
    setBrightness, setContrast, setControl, bind, ret, execSync.
  cbn [fst snd ok errors]. reflexivity.
Qed.

Lemma len_positive {A : Type} (l : list A) : l <> [] -> (Js.len l >? 0) = true.
Proof.
  destruct l; [contradiction|]. intros _. unfold Js.len. simpl List.length.
  destruct (Z.gtb_spec (Z.of_nat (S (List.length l))) 0); [reflexivity | lia].
Qed.

(** X9.  Optimize ends in one of two ways.  When the controller collected
    no error the success notification is shown and the dialog is left as it
    was; otherwise the Error dialog opens with the messages joined by a
    period and a blank and closed by a period, and the notification is still
    the one shown at the start.  The "Failed to apply optimal settings"
    notification is never shown. *)
Theorem optimize_outcome (st : State) :
  (errors (fst (Webcam.applyOptimalSettings (webcam st))) = [] ->
   notification (Ui.applyOptimalSettings st)
   = note "Optimal settings applied successfully!" Notification.success true /\
   dialog (Ui.applyOptimalSettings st) = dialog st) /\
  (errors (fst (Webcam.applyOptimalSettings (webcam st))) <> [] ->
   dialog (Ui.applyOptimalSettings st)
   = {| Dialog.type := Dialog.error;
        Dialog.title := Some "Optimal Settings - Partial Success";
        Dialog.message :=
          Some (Js.join ". " (errors (fst (Webcam.applyOptimalSettings (webcam st)))) ++ ".") |} /\
   notification (Ui.applyOptimalSettings st)
   = note "Applying optimal settings..." Notification.info true) /\
  notification (Ui.applyOptimalSettings st)
  <> note "Failed to apply optimal settings" Notification.error true.
Proof.
  pose proof (ui_applyOptimalSettings_cases st) as Hok. cbv zeta in Hok.
  unfold Ui.applyOptimalSettings, call. cbn [fst snd].
  change (webcam (showNotification "Applying optimal settings..." Notification.info st))
    with (webcam st).
  rewrite Hok.
  destruct (errors (fst (Webcam.applyOptimalSettings (webcam st)))) as [|e es] eqn:He.
  - cbn [noErrors]. split; [|split].
    + intros _. split; reflexivity.
    + intro H. now contradiction H.
    + discriminate.
  - cbn [noErrors]. rewrite (len_positive (e :: es)) by discriminate. split; [|split].
    + discriminate.
    + intros _. split; reflexivity.
    + discriminate.
Qed.

Lemma optimize_outcome_witness :
  notification (Ui.applyOptimalSettings Sim.started)
  = note "Optimal settings applied successfully!" Notification.success true /\
  dialog (Ui.applyOptimalSettings Sim.started) = dialog Sim.started.
Proof.
  refine (proj1 (optimize_outcome Sim.started) _). vm_compute. reflexivity.
Defined.

(** X10.  A notification shown while no timer is pending stays visible for
    2000 ms and is hidden from then on; its message and type are kept when
    it is hidden, and no timer is left. *)
Theorem notification_lifetime (st : State) (m : string) (t : Notification.Type_) (dt : Z) :
  timers st = [] ->
  (0 <= dt < 2000 ->
   notification (elapse dt (showNotification m t st)) = note m t true) /\
  (2000 <= dt ->
   notification (elapse dt (showNotification m t st)) = note m t false /\
   timers (elapse dt (showNotification m t st)) = []).
Proof.
  intro Ht. unfold elapse, showNotification.
  cbn [timers clock notification withTimers setNotification]. rewrite Ht. cbn [app filter].
  split; intro Hdt.
  - rewrite (leb_false (clock st + 2000)) by lia. reflexivity.
  - rewrite (leb_true (clock st + 2000)) by lia. split; reflexivity.
Qed.

Lemma notification_lifetime_witness :
  notification (elapse 2000 (showNotification "saved" Notification.info Sim.started))
  = note "saved" Notification.info false /\
  timers (elapse 2000 (showNotification "saved" Notification.info Sim.started)) = [].
Proof.
  refine (proj2 (notification_lifetime Sim.started "saved" Notification.info 2000 _) _).
  - vm_compute. reflexivity.
  - lia.
Defined.

Lemma visibleSettings_index (i : Z) (st : State) :
  visibleSettings (setSelectedIndex i st) = visibleSettings st.
Proof.
  unfold visibleSettings, shouldShowSetting, settings.
  cbn [setSelectedIndex currentSettings currentFormat]. reflexivity.
Qed.

(** X11.  With no dialog open, Down puts the cursor inside the visible list
    from any index that is at least [-1], in particular from an index past
    the end, where it lands on the last row; Up only steps back by one and
    stops at the first row, so from an index past the end it need not reach
    the list.  Neither runs a command or changes the rows. *)
Theorem down_brings_cursor_into_list (st : State) (input : string) (key : Key) :
  Dialog.type (dialog st) = Dialog.none ->
  (upArrow key = false -> downArrow key = true -> -1 <= selectedIndex st ->
   0 <= selectedIndex (useInput input key st) <= Js.len (visibleSettings st) - 1 /\
   (Js.len (visibleSettings st) - 1 <= selectedIndex st ->
    selectedIndex (useInput input key st) = Js.len (visibleSettings st) - 1) /\
   visibleSettings (useInput input key st) = visibleSettings st /\
   webcam (useInput input key st) = webcam st) /\
  (upArrow key = true ->
   selectedIndex (useInput input key st) = Z.max 0 (selectedIndex st - 1) /\
   visibleSettings (useInput input key st) = visibleSettings st /\
   webcam (useInput input key st) = webcam st).
Proof.
  intro Hd. unfold useInput, Dialog.isNone. rewrite Hd. cbn [negb].
  pose proof (visible_count (currentSettings st)) as Hc. rewrite <- len_visible in Hc.
  split.
  - intros Hu Hdown Hi. rewrite Hu, Hdown. rewrite visibleSettings_index.
    cbn [selectedIndex setSelectedIndex webcam].
    split; [lia|]. split; [lia|]. split; reflexivity.
  - intros Hu. rewrite Hu, visibleSettings_index.
    cbn [selectedIndex setSelectedIndex webcam]. repeat split.
Qed.

Lemma down_brings_cursor_into_list_witness :
  selectedIndex (useInput "" Sim.down (Ui.applyOptimalSettings Sim.atLastRow))
  = Js.len (visibleSettings (Ui.applyOptimalSettings Sim.atLastRow)) - 1.
Proof.
  pose proof (down_brings_cursor_into_list (Ui.applyOptimalSettings Sim.atLastRow)
                "" Sim.down) as H.
  destruct H as [H _].
  - vm_compute. reflexivity.
  - destruct H as [_ [H _]].
    + reflexivity.
    + reflexivity.
    + vm_compute. discriminate.
    + apply H. vm_compute. discriminate.
Defined.

Lemma busy_condition (o : Outcome) :
  negb (success (busyOrUnknown o)) && isDeviceBusy (busyOrUnknown o) = isBusyOutcome o.
Proof.
  destruct o as [out | msg]; [reflexivity|]. unfold busyOrUnknown, isBusyOutcome.
  destruct (Js.includes "Device or resource busy" msg); reflexivity.
Qed.

Lemma nth_error_next {A : Type} (old : list A) (x : A) (more : list A) :
  nth_error (old ++ x :: more) (List.length old) = Some x.
Proof. induction old; simpl; auto. Qed.

Lemma select_feedback (st : State) (m : M Result) (c : Cmd) (text : string) (cmd : Cmd) :
  (forall w, m w = (busyOrUnknown (respond w (history w) c), snd (execSync c w))) ->
  let r := fst (m (webcam st)) in
  let st1 := withWorld (snd (m (webcam st))) st in
  let st' := refreshSettings
               (if negb (success r) && isDeviceBusy r
                then showNotification text Notification.error st1 else st1) in
  nth_error (history (webcam st')) (List.length (history (webcam st))) = Some cmd ->
  (isBusyOutcome (respond (webcam st) (history (webcam st)) cmd) = true ->
   notification st' = note text Notification.error true /\
   timers st' = (timers st ++ [clock st + 2000])%list) /\
  (isBusyOutcome (respond (webcam st) (history (webcam st)) cmd) = false ->
   notification st' = notification st /\ timers st' = timers st).
Proof.
  intros Hm r st1 st'. subst r st1 st'. rewrite Hm. cbn [fst snd].
  rewrite busy_condition.
  destruct (isBusyOutcome (respond (webcam st) (history (webcam st)) c)) eqn:Hb; intro Hn.
  - destruct (refresh_after
                (showNotification text Notification.error
                   (withWorld (snd (execSync c (webcam st))) st))
                (history (webcam st)) [c] eq_refl) as [more [Hh _]].
    rewrite Hh in Hn. cbn [app] in Hn. rewrite nth_error_next in Hn. injection Hn as <-.
    rewrite Hb. split; [intros _; split; reflexivity | discriminate].
  - destruct (refresh_after (withWorld (snd (execSync c (webcam st))) st)
                (history (webcam st)) [c] eq_refl) as [more [Hh _]].
    rewrite Hh in Hn. cbn [app] in Hn. rewrite nth_error_next in Hn. injection Hn as <-.
    rewrite Hb. split; [discriminate | intros _; split; reflexivity].
Qed.

(** X12.  Applying a resolution, pixel-format or frame-rate option reports
    a failure only when the command failed with the busy message: then the
    error notification "Cannot change ..: camera is in use" naming the
    setting is shown.  After a success, and after any other failure, the
    notification and its timers are as before. *)
Theorem format_failure_feedback (st : State) (key what value : string) (cmd : Cmd) :
  In (key, what) exclusiveLabels ->
  nth_error (history (webcam (applySelectSetting key value st)))
    (List.length (history (webcam st))) = Some cmd ->
  (isBusyOutcome (respond (webcam st) (history (webcam st)) cmd) = true ->
   notification (applySelectSetting key value st)
   = note ("Cannot change " ++ what ++ ": camera is in use") Notification.error true /\
   timers (applySelectSetting key value st) = (timers st ++ [clock st + 2000])%list) /\
  (isBusyOutcome (respond (webcam st) (history (webcam st)) cmd) = false ->
   notification (applySelectSetting key value st) = notification st /\
   timers (applySelectSetting key value st) = timers st).
Proof.
  intros [H | [H | [H | []]]]; injection H as <- <-;
    unfold applySelectSetting, call; cbn [String.eqb Ascii.eqb Bool.eqb fst snd].
  - apply (select_feedback st
             (setVideoFormat (dimension value 0) (dimension value 1)
                (valueOr (findSetting st "format") "MJPG"))
             (SetFmtVideo (dimension value 0) (dimension value 1)
                (valueOr (findSetting st "format") "MJPG"))).
    reflexivity.
  - apply (select_feedback st
             (setVideoFormat (dimension (valueOr (findSetting st "resolution") "1920x1080") 0)
                (dimension (valueOr (findSetting st "resolution") "1920x1080") 1) value)
             (SetFmtVideo (dimension (valueOr (findSetting st "resolution") "1920x1080") 0)
                (dimension (valueOr (findSetting st "resolution") "1920x1080") 1) value)).
    reflexivity.
  - apply (select_feedback st
             (setFrameRate (Js.parseInt (Js.remove_first "fps" value)))
             (SetParm (Js.parseInt (Js.remove_first "fps" value)))).
    reflexivity.
Qed.

End Feedback.

Section Toggles.

Import Webcam Ui Props.

Lemma format_failure_feedback_witness :
  notification (applySelectSetting "resolution" "1280x720" (mount (Sim.plugged true "MJPG")))
  = note "Cannot change resolution: camera is in use" Notification.error true /\
  timers (applySelectSetting "resolution" "1280x720" (mount (Sim.plugged true "MJPG")))
  = (timers (mount (Sim.plugged true "MJPG"))
     ++ [clock (mount (Sim.plugged true "MJPG")) + 2000])%list.
Proof.
  pose proof (format_failure_feedback (mount (Sim.plugged true "MJPG"))
                "resolution" "resolution" "1280x720"
                (SetFmtVideo (Some 1280) (Some 720) "YUYV")) as H.
  destruct H as [H _].
  - simpl. auto.
  - vm_compute. reflexivity.
  - apply H. vm_compute. reflexivity.
Defined.

Lemma adjust_toggle_item (st : State) (key label control : string) (b : bool)
    (on off delta : Z) (setter : bool -> M bool) :
  (forall e, setter e = setControl control (if e then on else off)) ->
  (forall v, applySetting key (VBool v) st = refreshSettings (run (setter v) st)) ->
  Js.mem ["resolution"; "format"; "framerate"] key = false ->
  isManualControlDisabled st key = false ->
  (exists more,
     history (webcam (adjustSetting (toggleItem key label b) delta st))
     = (history (webcam st) ++ [SetCtrl control (if b then off else on)] ++ more)%list /\
     forallb isQuery more = true) /\
  adjustSetting (toggleItem key label b) delta st
  = adjustSetting (toggleItem key label b) 0 st.
Proof.
  intros Hset Happ Hex Hlock. unfold adjustSetting.
  cbn [Setting.key Setting.type Setting.value toggleItem truthy].
  rewrite Hex, andb_false_r, Hlock. split; [|reflexivity].
  rewrite Happ, Hset. apply refresh_after. rewrite run_setControl_history.
  destruct b; reflexivity.
Qed.

(** X15.  Adjusting a toggle row writes the opposite of the value shown to
    the control of that row (3 and 1 stand for on and off of automatic
    exposure, 1 and 0 for the other two), whatever the delta is and whether
    or not the device is busy; only queries follow. *)
Theorem toggle_adjust_flips (st : State) (s : Setting.Item) (delta : Z) :
  In s (settings st) -> Setting.type s = Setting.toggle ->
  exists (control : string) (on off : Z) (b : bool),
    In (Setting.key s, control, on, off) toggleControls /\
    Setting.value s = VBool b /\
    (exists more,
       history (webcam (adjustSetting s delta st))
       = (history (webcam st) ++ [SetCtrl control (if b then off else on)] ++ more)%list /\
       forallb isQuery more = true) /\
    adjustSetting s delta st = adjustSetting s 0 st.
Proof.
  intros Hin Hty. unfold settings, catalog in Hin. simpl In in Hin.
  repeat (destruct Hin as [Hin | Hin]; [subst s; try discriminate Hty|]);
    [ .. | contradiction].
  - exists "auto_exposure", 3, 1, (autoExposure (currentSettings st)).
    split; [simpl; auto|]. split; [reflexivity|].
    apply (adjust_toggle_item st "autoExposure" "Auto Exposure" "auto_exposure"
             (autoExposure (currentSettings st)) 3 1 delta setAutoExposure);
      reflexivity.
  - exists "focus_automatic_continuous", 1, 0, (autoFocus (currentSettings st)).
    split; [simpl; auto|]. split; [reflexivity|].
    apply (adjust_toggle_item st "autoFocus" "Auto Focus" "focus_automatic_continuous"
             (autoFocus (currentSettings st)) 1 0 delta setAutoFocus);
      reflexivity.
  - exists "white_balance_automatic", 1, 0, (autoWhiteBalance (currentSettings st)).
    split; [simpl; auto|]. split; [reflexivity|].
    apply (adjust_toggle_item st "autoWhiteBalance" "Auto White Balance"
             "white_balance_automatic"
             (autoWhiteBalance (currentSettings st)) 1 0 delta setAutoWhiteBalance);
      reflexivity.
Qed.

Lemma toggle_adjust_flips_witness :
  exists (control : string) (on off : Z) (b : bool),
    In ("autoFocus", control, on, off) toggleControls /\
    Setting.value (toggleItem "autoFocus" "Auto Focus" false) = VBool b /\
    (exists more,
       history (webcam (adjustSetting (toggleItem "autoFocus" "Auto Focus" false) 10
                          Sim.started))
       = (history (webcam Sim.started) ++ [SetCtrl control (if b then off else on)] ++ more)%list /\
       forallb isQuery more = true) /\
    adjustSetting (toggleItem "autoFocus" "Auto Focus" false) 10 Sim.started
    = adjustSetting (toggleItem "autoFocus" "Auto Focus" false) 0 Sim.started.
Proof.
  refine (toggle_adjust_flips Sim.started (toggleItem "autoFocus" "Auto Focus" false) 10 _ _).
  - vm_compute. do 10 right. left. reflexivity.
  - reflexivity.
Defined.

End Toggles.

Section Start.

Import Webcam Ui Props.

Lemma first_row_is_resolution (st : State) :
  selectedIndex st = 0 ->
  Js.at_ (visibleSettings st) (selectedIndex st)
  = Some (selectItem "resolution" "Resolution"
            (Js.toStr (width (currentFormat st)) ++ "x" ++ Js.toStr (height (currentFormat st)))
            resolutionOptions).
Proof.
  intros ->. unfold visibleSettings, settings, catalog.
  cbn [filter Setting.key selectItem shouldShowSetting shouldShow String.eqb Ascii.eqb Bool.eqb].
  reflexivity.
Qed.

(** X7.  The busy lock is only as fresh as the last refresh.  The first
    render queries the settings and the format but not the status:
    [deviceBusy] starts false and the cursor on the first row, Resolution.
    In such a state an adjustment is not refused: it runs the format
    command with one of the five resolutions and the current pixel format
    (MJPG when that is empty), followed by the refresh queries. *)
Theorem busy_lock_needs_a_refresh :
  (forall w : World,
     selectedIndex (mount w) = 0 /\ deviceBusy (mount w) = false /\
     history (webcam (mount w)) = (history w ++ settingsQueries ++
        match respond w (history w ++ settingsQueries) GetFmtVideo with
        | Done _ => [GetFmtVideo; GetParm]
        | Thrown _ => [GetFmtVideo]
        end)%list) /\
  (forall (st : State) (delta : Z),
     selectedIndex st = 0 -> deviceBusy st = false ->
     exists (w h : Z) (more : list Cmd),
       In (Js.toStr w ++ "x" ++ Js.toStr h)%string resolutionOptions /\
       history (webcam (adjustCurrentSetting delta st))
       = (history (webcam st)
          ++ [SetFmtVideo (Some w) (Some h)
                (if Js.nonempty (pixelFormat (currentFormat st))
                 then pixelFormat (currentFormat st) else "MJPG")] ++ more)%list /\
       forallb isQuery more = true).
Proof.
  split.
  - intro w. unfold mount.
    destruct (getCurrentSettings_history w) as [Hs Rs].
    destruct (getCurrentSettings w) as [cs w1] eqn:E1. cbn [snd] in Hs, Rs.
    destruct (getCurrentVideoFormat w1) as [cf w2] eqn:E2.
    cbn [selectedIndex deviceBusy webcam]. split; [reflexivity|]. split; [reflexivity|].
    assert (Hw2 : w2 = snd (getCurrentVideoFormat w1)) by now rewrite E2.
    rewrite Hw2. unfold getCurrentVideoFormat, bind, ret, execSync.
    rewrite Rs, Hs.
    destruct (respond w (history w ++ settingsQueries)%list GetFmtVideo);
      cbn [fst snd history respond].
    + destruct (respond w ((history w ++ settingsQueries) ++ [GetFmtVideo])%list GetParm);
        cbn [fst snd history]; now rewrite <- !app_assoc.
    + now rewrite <- !app_assoc.
  - intros st delta Hi Hb. unfold adjustCurrentSetting.
    rewrite (first_row_is_resolution st Hi). unfold adjustSetting. rewrite Hb.
    cbn [andb Setting.key Setting.type Setting.options Setting.value selectItem].
    change (isManualControlDisabled st "resolution") with false. cbv iota.
    destruct (selectNewValue_defined resolutionOptions
                (VStr (Js.toStr (width (currentFormat st)) ++ "x"
                       ++ Js.toStr (height (currentFormat st)))) delta)
      as [_ [_ [r [Hr [Hin _]]]]]; [discriminate|].
    rewrite Hr.
    destruct Hin as [<- | [<- | [<- | [<- | [<- | []]]]]].
    + exists 640, 480.
      destruct (proj2 (format_change_keeps_other_half st) 640 480) as [more H].
      exists more. split; [simpl; auto | exact H].
    + exists 800, 600.
      destruct (proj2 (format_change_keeps_other_half st) 800 600) as [more H].
      exists more. split; [simpl; auto | exact H].
    + exists 1024, 576.
      destruct (proj2 (format_change_keeps_other_half st) 1024 576) as [more H].
      exists more. split; [simpl; auto | exact H].
    + exists 1280, 720.
      destruct (proj2 (format_change_keeps_other_half st) 1280 720) as [more H].
      exists more. split; [simpl; auto 10 | exact H].
    + exists 1920, 1080.
      destruct (proj2 (format_change_keeps_other_half st) 1920 1080) as [more H].
      exists more. split; [simpl; auto 10 | exact H].
Qed.

Lemma busy_lock_needs_a_refresh_witness :
  exists (w h : Z) (more : list Cmd),
    In (Js.toStr w ++ "x" ++ Js.toStr h)%string resolutionOptions /\
    history (webcam (adjustCurrentSetting 1 (mount (Sim.plugged true "MJPG"))))
    = (history (webcam (mount (Sim.plugged true "MJPG")))
       ++ [SetFmtVideo (Some w) (Some h)
             (if Js.nonempty (pixelFormat (currentFormat (mount (Sim.plugged true "MJPG"))))
              then pixelFormat (currentFormat (mount (Sim.plugged true "MJPG")))
              else "MJPG")] ++ more)%list /\
    forallb isQuery more = true.
Proof.
  refine (proj2 busy_lock_needs_a_refresh (mount (Sim.plugged true "MJPG")) 1 _ _).
  - vm_compute. reflexivity.
  - vm_compute. reflexivity.
Defined.

End Start.
